(** * MessengerHub: message history store and query pipeline

    A shallow embedding of [oc-messengerbot.ts]: the bounded per-channel
    message store ([storeMessage]) and the natural-language query handler
    ([handleUserQuery] with its inner [searchMessages] and the result
    formatter), followed by the properties proved about them.

    Modelling conventions
    - JavaScript strings are modelled as Rocq [string]s (sequences of 8-bit
      code units).  [toLowerCase], [toUpperCase] and the [\s] class act on the
      ASCII range; other code units are left alone.
    - JavaScript numbers that hold timestamps and counters are integers far
      below 2^53, so they are modelled by [Z] and [nat] without rounding.
    - [Map] objects keep insertion order, which the search observes through
      [keys()]: they are insertion-ordered association lists ([JSMap]).  The
      process-wide [users] table is only ever looked up by key, it is a
      [gmap].
    - In-place mutation of a user's history is made explicit: [storeMessage]
      returns the updated [users] table.
    - The host supplies the time zone and the locale's rendering of
      timestamps; both are parameters.  One search reads the clock at one
      instant [now]. *)

From Stdlib Require Import ZArith Ascii String List Lia Bool Sorted.
From stdpp Require Import gmap strings list fin_maps.
Import ListNotations.

(* ===================================================================== *)
(** * Part I: definitions                                                 *)
(* ===================================================================== *)

(** ** JavaScript string primitives *)

Module JSString.

Definition isUpper (c : ascii) : bool :=
  (65 <=? nat_of_ascii c)%nat && (nat_of_ascii c <=? 90)%nat.

Definition isLower (c : ascii) : bool :=
  (97 <=? nat_of_ascii c)%nat && (nat_of_ascii c <=? 122)%nat.

Definition isDigit (c : ascii) : bool :=
  (48 <=? nat_of_ascii c)%nat && (nat_of_ascii c <=? 57)%nat.

Definition lowerChar (c : ascii) : ascii :=
  if isUpper c then ascii_of_nat (nat_of_ascii c + 32) else c.

Definition upperChar (c : ascii) : ascii :=
  if isLower c then ascii_of_nat (nat_of_ascii c - 32) else c.

(** [s.toLowerCase()] *)
Fixpoint toLowerCase (s : string) : string :=
  match s with
  | EmptyString => EmptyString
  | String c s' => String (lowerChar c) (toLowerCase s')
  end.

(** [s.startsWith(p)] *)
Fixpoint startsWith (s p : string) {struct p} : bool :=
  match p, s with
  | EmptyString, _ => true
  | String _ _, EmptyString => false
  | String a p', String b s' => if Ascii.eqb a b then startsWith s' p' else false
  end.

(** [s.includes(sub)] *)
Fixpoint includes (s sub : string) : bool :=
  startsWith s sub ||
  match s with
  | EmptyString => false
  | String _ s' => includes s' sub
  end.

(** [s.charAt(0).toUpperCase() + s.slice(1)] *)
Definition capitalize (s : string) : string :=
  match s with
  | EmptyString => EmptyString
  | String c s' => String (upperChar c) s'
  end.

(** [s.substring(1)] *)
Definition substring1 (s : string) : string :=
  match s with
  | EmptyString => EmptyString
  | String _ s' => s'
  end.

(** The double-quote character and the one-character string holding it. *)
Definition dquote : ascii := ascii_of_nat 34.
Definition squote : ascii := ascii_of_nat 39.
Definition dq : string := String dquote EmptyString.
Definition nl : string := String (ascii_of_nat 10) EmptyString.

(** Decimal rendering of a counter, as template literals do for numbers. *)
Definition digitChar (n : nat) : ascii := ascii_of_nat (48 + n).

Fixpoint natToStringAux (fuel n : nat) (acc : string) : string :=
  match fuel with
  | O => acc
  | S fuel' =>
      let acc' := String (digitChar (n mod 10)) acc in
      if (n <? 10)%nat then acc' else natToStringAux fuel' (n / 10) acc'
  end.

Definition natToString (n : nat) : string := natToStringAux (S n) n EmptyString.

End JSString.

(** ** Insertion-ordered maps ([Map] and plain objects used as records) *)

Module JSMap.
Section Ops.
Context {K V : Type} `{EqDecision K}.

Definition t := list (K * V).

(** [m.get(k)] *)
Fixpoint get (k : K) (m : list (K * V)) : option V :=
  match m with
  | [] => None
  | (k', v) :: m' => if decide (k = k') then Some v else get k m'
  end.

(** [m.has(k)] *)
Definition has (k : K) (m : list (K * V)) : bool :=
  match get k m with Some _ => true | None => false end.

(** [m.set(k, v)]: an existing key keeps its position, a new key goes
    last. *)
Fixpoint set (k : K) (v : V) (m : list (K * V)) : list (K * V) :=
  match m with
  | [] => [(k, v)]
  | (k', v') :: m' =>
      if decide (k = k') then (k', v) :: m' else (k', v') :: set k v m'
  end.

(** [Array.from(m.keys())] *)
Definition keys (m : list (K * V)) : list K := map fst m.

End Ops.
End JSMap.

(** ** Data model *)

Inductive Platform := telegram | discord | slack.

#[global] Instance Platform_eq_dec : EqDecision Platform.
Proof. solve_decision. Defined.

Definition platformName (p : Platform) : string :=
  match p with
  | telegram => "telegram"
  | discord => "discord"
  | slack => "slack"
  end.

(** The stored message objects.  The connectors store differently shaped
    objects per platform ([text]/[date]/[chatTitle]/[senderName] for Telegram,
    [content]/[timestamp]/[channelName]/[authorName] for Discord,
    [text]/[timestamp]/[channelName]/[userName] for Slack); every reader picks
    the field by the platform it is scanning.  The record has all the fields,
    a reader looks only at those of its platform. *)
Record Message := mkMessage {
  msgId : string;
  text : string;
  content : string;
  date : Z;
  timestamp : Z;
  chatTitle : string;
  channelName : string;
  senderName : string;
  authorName : string;
  userName : string
}.

Record PlatformClients := mkClients {
  clientTelegram : bool;
  clientDiscord : bool;
  clientSlack : bool
}.

Record MessageHistory := mkHistory {
  histTelegram : list (string * list Message);
  histDiscord : list (string * list Message);
  histSlack : list (string * list Message)
}.

Record UserConfig := mkUser {
  userId : string;
  platformClients : PlatformClients;
  messageHistory : MessageHistory
}.

(** [user.messageHistory[platform]] *)
Definition historyOf (h : MessageHistory) (p : Platform) : list (string * list Message) :=
  match p with
  | telegram => histTelegram h
  | discord => histDiscord h
  | slack => histSlack h
  end.

(** The effect on the user object of mutating the map
    [user.messageHistory[platform]] in place. *)
Definition setHistory (u : UserConfig) (p : Platform)
    (m : list (string * list Message)) : UserConfig :=
  let h := messageHistory u in
  mkUser (userId u) (platformClients u)
    match p with
    | telegram => mkHistory m (histDiscord h) (histSlack h)
    | discord => mkHistory (histTelegram h) m (histSlack h)
    | slack => mkHistory (histTelegram h) (histDiscord h) m
    end.

(** ** The message history store *)

Definition MAX_HISTORY_PER_CHANNEL : nat := 500.

(** [channelMessages.shift()] *)
Definition shift (l : list Message) : list Message := tl l.

(** [storeMessage(userId, platform, channelId, message)].  An unknown user
    id returns at once.  Otherwise the channel's array is created when
    missing, the message is pushed, and the head is shifted out when the
    length has passed [MAX_HISTORY_PER_CHANNEL]. *)
Definition storeMessage (users : gmap string UserConfig) (uid : string)
    (platform : Platform) (channelId : string) (message : Message)
    : gmap string UserConfig :=
  match users !! uid with
  | None => users
  | Some user =>
      let hist := historyOf (messageHistory user) platform in
      let hist1 :=
        if JSMap.has channelId hist then hist else JSMap.set channelId [] hist in
      match JSMap.get channelId hist1 with
      | None => <[uid := setHistory user platform hist1]> users
      | Some channelMessages =>
          let pushed := channelMessages ++ [message] in
          let trimmed :=
            if (MAX_HISTORY_PER_CHANNEL <? length pushed)%nat
            then shift pushed else pushed in
          <[uid := setHistory user platform (JSMap.set channelId trimmed hist1)]> users
      end
  end.

(** One delivered message: the arguments of a [storeMessage] call. *)
Record Delivery := mkDelivery {
  dUser : string;
  dPlatform : Platform;
  dChannel : string;
  dMessage : Message
}.

Definition deliver (users : gmap string UserConfig) (d : Delivery) : gmap string UserConfig :=
  storeMessage users (dUser d) (dPlatform d) (dChannel d) (dMessage d).

Definition deliverAll (users : gmap string UserConfig) (ds : list Delivery)
    : gmap string UserConfig :=
  fold_left deliver ds users.

(** [platformHistory.get(channelId) || []] for a given user. *)
Definition storedMessages (users : gmap string UserConfig) (uid : string)
    (p : Platform) (channelId : string) : list Message :=
  match users !! uid with
  | None => []
  | Some user =>
      match JSMap.get channelId (historyOf (messageHistory user) p) with
      | Some l => l
      | None => []
      end
  end.

Definition addressedTo (uid : string) (p : Platform) (c : string) (d : Delivery) : bool :=
  bool_decide (dUser d = uid /\ dPlatform d = p /\ dChannel d = c).

(** The messages of the deliveries addressed to one channel, in order. *)
Definition messagesFor (uid : string) (p : Platform) (c : string)
    (ds : list Delivery) : list Message :=
  map dMessage (List.filter (addressedTo uid p c) ds).

(** ** The query interpreter (first half of [handleUserQuery]) *)

(** [keywords.some(keyword => query.toLowerCase().includes(keyword))] *)
Definition mentionsAny (query : string) (keywords : list string) : bool :=
  existsb (fun keyword => JSString.includes (JSString.toLowerCase query) keyword) keywords.

(** [Object.entries(platformKeywords)], in declaration order. *)
Definition platformKeywords : list (Platform * list string) :=
  [ (telegram, ["telegram"; "tg"]);
    (discord, ["discord"; "dc"; "server"]);
    (slack, ["slack"; "sl"]) ].

(** [Object.entries(timeKeywords)], in declaration order. *)
Definition timeKeywords : list (string * list string) :=
  [ ("recent", ["recent"; "latest"; "last"; "newest"]);
    ("today", ["today"; "this day"]);
    ("yesterday", ["yesterday"; "past day"]);
    ("thisWeek", ["this week"; "past week"; "last 7 days"]) ].

(** The platform loop: every platform one of whose keywords occurs in the
    lowercased query is pushed, in declaration order. *)
Fixpoint mentionedPlatforms (query : string) (entries : list (Platform * list string))
    : list Platform :=
  match entries with
  | [] => []
  | (platform, keywords) :: rest =>
      if mentionsAny query keywords
      then platform :: mentionedPlatforms query rest
      else mentionedPlatforms query rest
  end.

(** The platforms a query is run on: those it mentions, else all connected. *)
Definition detectPlatforms (query : string) (user : UserConfig) : list Platform :=
  let platforms := mentionedPlatforms query platformKeywords in
  if (length platforms =? 0)%nat then
    (if clientTelegram (platformClients user) then [telegram] else []) ++
    (if clientDiscord (platformClients user) then [discord] else []) ++
    (if clientSlack (platformClients user) then [slack] else [])
  else platforms.

(** The time-range loop: [timeRange] starts at its default and the loop
    assigns the first range whose keywords match, then breaks. *)
Fixpoint timeRangeLoop (query : string) (entries : list (string * list string))
    (timeRange : string) : string :=
  match entries with
  | [] => timeRange
  | (range, keywords) :: rest =>
      if mentionsAny query keywords then range
      else timeRangeLoop query rest timeRange
  end.

Definition detectTimeRange (query : string) : string :=
  timeRangeLoop query timeKeywords "recent".

Definition commonWords : list string :=
  [ "the"; "and"; "a"; "an"; "in"; "on"; "at"; "from"; "to"; "with"; "by"; "about";
    "for"; "of"; "as"; "what"; "who"; "when"; "where"; "why"; "how"; "did"; "does";
    "do"; "is"; "are"; "was"; "were"; "be"; "been"; "being"; "have"; "has"; "had";
    "can"; "could"; "will"; "would"; "shall"; "should"; "may"; "might"; "must";
    "that"; "this"; "these"; "those"; "it"; "they"; "them"; "their"; "there";
    "show"; "tell"; "find"; "get"; "see"; "look"; "search" ].

(** [commonWords.has(word)] *)
Definition isCommonWord (word : string) : bool :=
  existsb (String.eqb word) commonWords.

Fixpoint charIn (c : ascii) (s : string) : bool :=
  match s with
  | EmptyString => false
  | String c' s' => Ascii.eqb c c' || charIn c s'
  end.

(** The character class of the punctuation regular expression. *)
Definition isPunctuation (c : ascii) : bool := charIn c ".,/#!$%^&*;:{}=-_`~()".

(** The [replace] of every character of the punctuation class by the empty
    string. *)
Fixpoint stripPunctuation (s : string) : string :=
  match s with
  | EmptyString => EmptyString
  | String c s' =>
      if isPunctuation c then stripPunctuation s' else String c (stripPunctuation s')
  end.

(** The class [\s], on the ASCII range: tab, line feed, vertical tab, form
    feed, carriage return, space. *)
Definition isSpace (c : ascii) : bool :=
  let n := nat_of_ascii c in
  ((9 <=? n)%nat && (n <=? 13)%nat) || (n =? 32)%nat.

(** [s.split(/\s+/)]: [cur] is the piece being read, [afterSep] tells that
    the previous character belonged to a separator run.  As in JavaScript a
    leading or trailing run leaves an empty first or last piece. *)
Fixpoint splitAux (s cur : string) (afterSep : bool) : list string :=
  match s with
  | EmptyString => [cur]
  | String c s' =>
      if isSpace c then
        if afterSep then splitAux s' cur true
        else cur :: splitAux s' EmptyString true
      else splitAux s' (cur +:+ String c EmptyString) false
  end.

Definition splitWhitespace (s : string) : list string := splitAux s EmptyString false.

(** [queryWords]: the content keywords of a query. *)
Definition queryWords (query : string) : list string :=
  List.filter
    (fun word => (2 <? String.length word)%nat && negb (isCommonWord word))
    (splitWhitespace (stripPunctuation (JSString.toLowerCase query))).

(** Longest prefix of [s] made of characters satisfying [f], and the rest. *)
Fixpoint spanChars (f : ascii -> bool) (s : string) : string * string :=
  match s with
  | EmptyString => (EmptyString, EmptyString)
  | String c s' =>
      if f c then let (a, b) := spanChars f s' in (String c a, b)
      else (EmptyString, s)
  end.

(** The class [[a-zA-Z0-9_-]]. *)
Definition isChannelChar (c : ascii) : bool :=
  JSString.isLower c || JSString.isUpper c || JSString.isDigit c ||
  Ascii.eqb c "_" || Ascii.eqb c "-".

(** [query.match(/#([a-zA-Z0-9_-]+)/g)]: all matches, left to right, each the
    hash sign with the longest run of class characters after it.  [fuel]
    bounds the number of start positions tried; the length of the subject is
    enough. *)
Fixpoint matchChannelPattern (fuel : nat) (s : string) : list string :=
  match fuel with
  | O => []
  | S fuel' =>
      match s with
      | EmptyString => []
      | String c s' =>
          if Ascii.eqb c "#" then
            let (token, rest) := spanChars isChannelChar s' in
            match token with
            | EmptyString => matchChannelPattern fuel' s'
            | String _ _ => String c token :: matchChannelPattern fuel' rest
            end
          else matchChannelPattern fuel' s'
      end
  end.

(** One alternative of the quoted pattern tried just after an opening quote
    [q]: one or more characters other than [q], then [q].  Gives the captured
    group and what follows the match. *)
Definition closeQuote (q : ascii) (s : string) : option (string * string) :=
  let (inner, rest) := spanChars (fun c => negb (Ascii.eqb c q)) s in
  match inner, rest with
  | String _ _, String _ rest' => Some (inner, rest')
  | _, _ => None
  end.

(** The [quotedPattern.exec(query)] loop: the captured groups
    [match[1] || match[2]] of the successive matches. *)
Fixpoint matchQuotedPattern (fuel : nat) (s : string) : list string :=
  match fuel with
  | O => []
  | S fuel' =>
      match s with
      | EmptyString => []
      | String c s' =>
          if Ascii.eqb c JSString.dquote || Ascii.eqb c JSString.squote then
            match closeQuote c s' with
            | Some (inner, rest) => inner :: matchQuotedPattern fuel' rest
            | None => matchQuotedPattern fuel' s'
            end
          else matchQuotedPattern fuel' s'
      end
  end.

(** [channelMentions]: hash tokens without their hash sign, then quoted
    names. *)
Definition channelMentions (query : string) : list string :=
  map JSString.substring1 (matchChannelPattern (String.length query) query) ++
  matchQuotedPattern (String.length query) query.

(** ** The [Date] object (ECMAScript time values)

    Time values are milliseconds since the epoch.  The calendar functions
    follow the definitions of the language standard; the host's time zone is
    a parameter [tz]: [tz t true] is the offset of local time from UTC at the
    UTC instant [t], [tz t false] the offset to use for the local wall-clock
    value [t].  [TimeClip] is left out: every time value met here is within
    the range of a [Date]. *)

Module JSDate.
Local Open Scope Z_scope.

Definition TimeZone := Z -> bool -> Z.

Definition msPerSecond : Z := 1000.
Definition msPerMinute : Z := 60000.
Definition msPerHour : Z := 3600000.
Definition msPerDay : Z := 86400000.

Definition Day (t : Z) : Z := t / msPerDay.
Definition TimeWithinDay (t : Z) : Z := t mod msPerDay.

Definition DaysInYear (y : Z) : Z :=
  if (y mod 4 =? 0) && (negb (y mod 100 =? 0) || (y mod 400 =? 0)) then 366 else 365.

Definition DayFromYear (y : Z) : Z :=
  365 * (y - 1970) + (y - 1969) / 4 - (y - 1901) / 100 + (y - 1601) / 400.

Definition TimeFromYear (y : Z) : Z := msPerDay * DayFromYear y.

(** The largest year starting at or before [t]: an estimate from the mean
    length of a year, corrected by at most one. *)
Definition YearFromTime (t : Z) : Z :=
  let d := Day t in
  let y0 := 1970 + (400 * d) / 146097 in
  if DayFromYear (y0 + 1) <=? d then y0 + 1
  else if DayFromYear y0 <=? d then y0
  else y0 - 1.

Definition leapDays (y : Z) : Z := if DaysInYear y =? 366 then 1 else 0.

Definition InLeapYear (t : Z) : Z := leapDays (YearFromTime t).

Definition DayWithinYear (t : Z) : Z := Day t - DayFromYear (YearFromTime t).

(** Day number within the year of the first day of month [m] (0 to 11). *)
Definition monthStart (m leap : Z) : Z :=
  match m with
  | 0 => 0
  | 1 => 31
  | 2 => 59 + leap
  | 3 => 90 + leap
  | 4 => 120 + leap
  | 5 => 151 + leap
  | 6 => 181 + leap
  | 7 => 212 + leap
  | 8 => 243 + leap
  | 9 => 273 + leap
  | 10 => 304 + leap
  | _ => 334 + leap
  end.

Definition MonthFromTime (t : Z) : Z :=
  let d := DayWithinYear t in
  let l := InLeapYear t in
  if d <? 31 then 0
  else if d <? 59 + l then 1
  else if d <? 90 + l then 2
  else if d <? 120 + l then 3
  else if d <? 151 + l then 4
  else if d <? 181 + l then 5
  else if d <? 212 + l then 6
  else if d <? 243 + l then 7
  else if d <? 273 + l then 8
  else if d <? 304 + l then 9
  else if d <? 334 + l then 10
  else 11.

Definition DateFromTime (t : Z) : Z :=
  let d := DayWithinYear t in
  let l := InLeapYear t in
  match MonthFromTime t with
  | 0 => d + 1
  | 1 => d - 30
  | 2 => d - 58 - l
  | 3 => d - 89 - l
  | 4 => d - 119 - l
  | 5 => d - 150 - l
  | 6 => d - 180 - l
  | 7 => d - 211 - l
  | 8 => d - 242 - l
  | 9 => d - 272 - l
  | 10 => d - 303 - l
  | _ => d - 333 - l
  end.

Definition HourFromTime (t : Z) : Z := (t / msPerHour) mod 24.
Definition MinFromTime (t : Z) : Z := (t / msPerMinute) mod 60.
Definition SecFromTime (t : Z) : Z := (t / msPerSecond) mod 60.
Definition msFromTime (t : Z) : Z := t mod msPerSecond.

Definition MakeTime (hour min sec ms : Z) : Z :=
  hour * msPerHour + min * msPerMinute + sec * msPerSecond + ms.

(** The day number of the given date; [month] and [date] may lie outside
    their usual ranges and then carry over. *)
Definition MakeDay (year month date : Z) : Z :=
  let ym := year + month / 12 in
  let mn := month mod 12 in
  DayFromYear ym + monthStart mn (leapDays ym) + date - 1.

Definition MakeDate (day time : Z) : Z := day * msPerDay + time.

Section Zone.
Variable tz : TimeZone.

Definition LocalTime (t : Z) : Z := t + tz t true.
Definition UTC (t : Z) : Z := t - tz t false.

(** [d.getDate()] *)
Definition getDate (d : Z) : Z := DateFromTime (LocalTime d).

(** [d.setDate(date)]: the new time value of [d] (also the result). *)
Definition setDate (d date : Z) : Z :=
  let t := LocalTime d in
  let newDate :=
    MakeDate (MakeDay (YearFromTime t) (MonthFromTime t) date) (TimeWithinDay t) in
  UTC newDate.

(** [d.setHours(hour, min, sec, ms)]: the new time value of [d]. *)
Definition setHours (d hour min sec ms : Z) : Z :=
  let t := LocalTime d in
  UTC (MakeDate (Day t) (MakeTime hour min sec ms)).

(** [d.getTime()] *)
Definition getTime (d : Z) : Z := d.
End Zone.

(** A zone with a fixed offset from UTC. *)
Definition fixedZone (offset : Z) : TimeZone := fun _ _ => offset.

(** A zone that moves its clocks forward from [before] to [after] at the
    UTC instant [at]; wall-clock values skipped by the change are read with
    the offset in force before it. *)
Definition shiftingZone (at_ before after : Z) : TimeZone :=
  fun t isUTC =>
    if isUTC then (if t <? at_ then before else after)
    else (if t <? at_ + after then before else after).

End JSDate.

(** ** The search engine ([searchMessages]) *)

Record ChannelInfo := mkChannelInfo {
  infoId : string;
  infoName : string
}.

Record SearchResult := mkResult {
  messages : list Message;
  channelInfo : ChannelInfo
}.

(** The platform-dependent field accesses of the readers. *)
Definition msgChannelName (platform : Platform) (m : Message) : string :=
  match platform with
  | telegram => chatTitle m
  | discord => channelName m
  | slack => channelName m
  end.

Definition msgTimestamp (platform : Platform) (m : Message) : Z :=
  match platform with
  | telegram => (date m * 1000)%Z
  | discord => timestamp m
  | slack => timestamp m
  end.

Definition msgText (platform : Platform) (m : Message) : string :=
  match platform with
  | telegram => text m
  | discord => content m
  | slack => text m
  end.

(** [platformHistory.get(channelId) || []] *)
Definition channelMessagesOf (platformHistory : list (string * list Message))
    (channelId : string) : list Message :=
  match JSMap.get channelId platformHistory with
  | Some l => l
  | None => []
  end.

Section Search.
Variable tz : JSDate.TimeZone.

(** The [switch] on the time range.  [now] is the instant at which the
    clock is read. *)
Definition cutoffTime (now : Z) (timeRange : string) : Z :=
  if String.eqb timeRange "today" then
    JSDate.setHours tz now 0 0 0 0
  else if String.eqb timeRange "yesterday" then
    let yesterday := JSDate.setDate tz now (JSDate.getDate tz now - 1) in
    JSDate.setHours tz yesterday 0 0 0 0
  else if String.eqb timeRange "thisWeek" then
    let weekAgo := JSDate.setDate tz now (JSDate.getDate tz now - 7) in
    JSDate.getTime weekAgo
  else (now - 24 * 60 * 60 * 1000)%Z.

(** The callback of the channel filter. *)
Definition channelMatchesHints (platform : Platform)
    (platformHistory : list (string * list Message))
    (channelHints : list string) (channelId : string) : bool :=
  match channelMessagesOf platformHistory channelId with
  | [] => false
  | first :: _ =>
      let name := msgChannelName platform first in
      existsb
        (fun hint =>
           JSString.includes (JSString.toLowerCase name) (JSString.toLowerCase hint)
           || String.eqb channelId hint)
        channelHints
  end.

Definition channelsToSearch (platform : Platform)
    (platformHistory : list (string * list Message))
    (channelHints : list string) : list string :=
  let channels := JSMap.keys platformHistory in
  if (0 <? length channelHints)%nat
  then List.filter (channelMatchesHints platform platformHistory channelHints) channels
  else channels.

(** The callback of the message filter. *)
Definition messageMatches (platform : Platform) (keywords : list string)
    (cutoff : Z) (message : Message) : bool :=
  if (msgTimestamp platform message <? cutoff)%Z then false
  else if (length keywords =? 0)%nat then true
  else
    existsb
      (fun keyword =>
         JSString.includes (JSString.toLowerCase (msgText platform message))
           (JSString.toLowerCase keyword))
      keywords.

(** The loop over the channels to search, pushing one result per channel
    that has matching messages. *)
Fixpoint searchChannels (platform : Platform)
    (platformHistory : list (string * list Message))
    (keywords : list string) (cutoff : Z) (channels : list string)
    : list SearchResult :=
  match channels with
  | [] => []
  | channelId :: rest =>
      match channelMessagesOf platformHistory channelId with
      | [] => searchChannels platform platformHistory keywords cutoff rest
      | (first :: _) as msgs =>
          let name := msgChannelName platform first in
          let matchingMessages :=
            List.filter (messageMatches platform keywords cutoff) msgs in
          if (0 <? length matchingMessages)%nat
          then mkResult matchingMessages (mkChannelInfo channelId name)
               :: searchChannels platform platformHistory keywords cutoff rest
          else searchChannels platform platformHistory keywords cutoff rest
      end
  end.

Definition searchMessages (user : UserConfig) (now : Z) (platform : Platform)
    (keywords channelHints : list string) (timeRange : string)
    : list SearchResult :=
  let cutoff := cutoffTime now timeRange in
  let platformHistory := historyOf (messageHistory user) platform in
  searchChannels platform platformHistory keywords cutoff
    (channelsToSearch platform platformHistory channelHints).

(** The loop that gathers the per-platform results into [searchResults]. *)
Fixpoint searchPlatforms (user : UserConfig) (now : Z)
    (keywords channelHints : list string) (timeRange : string)
    (platforms : list Platform)
    (searchResults : list (Platform * list SearchResult))
    : list (Platform * list SearchResult) :=
  match platforms with
  | [] => searchResults
  | platform :: rest =>
      let results := searchMessages user now platform keywords channelHints timeRange in
      searchPlatforms user now keywords channelHints timeRange rest
        (if (0 <? length results)%nat
         then JSMap.set platform results searchResults
         else searchResults)
  end.
End Search.

(** ** The result formatter (second half of [handleUserQuery])

    The response is built by appending text to [response].  The model keeps
    the appended pieces apart, each tagged with what it is, and the response
    text is their concatenation ([renderResponse]). *)

Definition MAX_MESSAGES_TO_DISPLAY : nat := 20.

Inductive Piece :=
| PNoMatch (query : string)
| PTitle (query : string)
| PPlatformHeader (platform : Platform)
| PChannelHeader (name : string)
| PMessage (platform : Platform) (message : Message)
| PSeparator
| PNote (displayed total : nat).

Record FormatState := mkFormatState {
  response : list Piece;
  totalMessagesDisplayed : nat
}.

Definition emit (st : FormatState) (ps : list Piece) : FormatState :=
  mkFormatState (response st ++ ps) (totalMessagesDisplayed st).

(** Insertion of [x] into a list sorted newest first, before the first
    element that is not strictly newer. *)
Fixpoint insertNewestFirst (platform : Platform) (x : Message) (l : list Message)
    : list Message :=
  match l with
  | [] => [x]
  | y :: l' =>
      if (msgTimestamp platform x <? msgTimestamp platform y)%Z
      then y :: insertNewestFirst platform x l'
      else x :: l
  end.

(** [[...result.messages].sort((a, b) => timestampB - timestampA)]: a stable
    sort, newest first. *)
Fixpoint sortNewestFirst (platform : Platform) (l : list Message) : list Message :=
  match l with
  | [] => []
  | x :: l' => insertNewestFirst platform x (sortNewestFirst platform l')
  end.

(** The inner loop, over the channel results of one platform. *)
Fixpoint formatChannels (platform : Platform) (platformResults : list SearchResult)
    (st : FormatState) : FormatState :=
  match platformResults with
  | [] => st
  | result :: rest =>
      if (MAX_MESSAGES_TO_DISPLAY <=? totalMessagesDisplayed st)%nat then st
      else
        let st1 := emit st [PChannelHeader (infoName (channelInfo result))] in
        let sortedMessages := sortNewestFirst platform (messages result) in
        let messagesToShow :=
          firstn (MAX_MESSAGES_TO_DISPLAY - totalMessagesDisplayed st1) sortedMessages in
        let st2 :=
          mkFormatState (response st1)
            (totalMessagesDisplayed st1 + length messagesToShow) in
        let st3 := emit st2 (map (PMessage platform) messagesToShow) in
        formatChannels platform rest (emit st3 [PSeparator])
  end.

(** The outer loop, over [Object.entries(searchResults)]. *)
Fixpoint formatPlatforms (entries : list (Platform * list SearchResult))
    (st : FormatState) : FormatState :=
  match entries with
  | [] => st
  | (platform, platformResults) :: rest =>
      if (MAX_MESSAGES_TO_DISPLAY <=? totalMessagesDisplayed st)%nat then st
      else
        let st1 := emit st [PPlatformHeader platform] in
        formatPlatforms rest (formatChannels platform platformResults st1)
  end.

(** [Object.values(searchResults).flatMap(results => results.flatMap(result
    => result.messages)).length] *)
Definition totalMessages (searchResults : list (Platform * list SearchResult)) : nat :=
  length (flat_map (fun entry => flat_map messages (snd entry)) searchResults).

Definition formatResponse (query : string)
    (searchResults : list (Platform * list SearchResult)) : list Piece :=
  if (length (JSMap.keys searchResults) =? 0)%nat then [PNoMatch query]
  else
    let st := formatPlatforms searchResults (mkFormatState [PTitle query] 0) in
    if (totalMessagesDisplayed st <? totalMessages searchResults)%nat
    then response st ++ [PNote (totalMessagesDisplayed st) (totalMessages searchResults)]
    else response st.

Definition formatMessage (message : Message) (platform : Platform) : string :=
  match platform with
  | telegram => "**" +:+ senderName message +:+ "**: " +:+ text message
  | discord => "**" +:+ authorName message +:+ "**: " +:+ content message
  | slack => "**" +:+ userName message +:+ "**: " +:+ text message
  end.

(** The text of the response when nothing was found. *)
Definition noMatchText (query : string) : string :=
  "I couldn't find any messages matching your query " +:+ JSString.dq +:+ query
  +:+ JSString.dq +:+ "." +:+ JSString.nl +:+ "    " +:+ JSString.nl
  +:+ "Try refining your search or make sure you're connected to the relevant platforms.".

(** The text of the trailing note. *)
Definition noteText (displayed total : nat) : string :=
  JSString.nl +:+ "_Showing " +:+ JSString.natToString displayed +:+ " of "
  +:+ JSString.natToString total
  +:+ " matching messages. Refine your search to see more specific results._".

Section Render.
(** [new Date(timestamp).toLocaleString()], which depends on the host's
    locale and time zone. *)
Variable formatTimestamp : Z -> string.

(** The text each piece stands for. *)
Definition renderPiece (p : Piece) : string :=
  match p with
  | PNoMatch query => noMatchText query
  | PTitle query =>
      "📝 **Search Results for " +:+ JSString.dq +:+ query +:+ JSString.dq +:+ "**"
      +:+ JSString.nl +:+ JSString.nl
  | PPlatformHeader platform =>
      "**" +:+ JSString.capitalize (platformName platform) +:+ " Results:**"
      +:+ JSString.nl +:+ JSString.nl
  | PChannelHeader name => "**Channel: " +:+ name +:+ "**" +:+ JSString.nl
  | PMessage platform message =>
      "[" +:+ formatTimestamp (msgTimestamp platform message) +:+ "] "
      +:+ formatMessage message platform +:+ JSString.nl +:+ JSString.nl
  | PSeparator => JSString.nl
  | PNote displayed total => noteText displayed total
  end.

Definition renderResponse (ps : list Piece) : string :=
  fold_right (fun p acc => renderPiece p +:+ acc) EmptyString ps.
End Render.

(** ** [handleUserQuery] *)

Record OutgoingMessage := mkOutgoing {
  kind : string;
  outText : string
}.

Definition textMessage (s : string) : list OutgoingMessage := [mkOutgoing "text" s].

Definition userNotFoundText : string := "User data not found. Please try again.".

Definition notConnectedText : string :=
  "You are not connected to any messaging platforms. Use /setup to get started.".

Section Handler.
Variable tz : JSDate.TimeZone.
Variable formatTimestamp : Z -> string.

(** The pieces of the response of a query by a known, connected user. *)
Definition answerPieces (user : UserConfig) (now : Z) (query : string) : list Piece :=
  let platforms := detectPlatforms query user in
  let timeRange := detectTimeRange query in
  let keywords := queryWords query in
  let mentions := channelMentions query in
  let searchResults :=
    searchPlatforms tz user now keywords mentions timeRange platforms [] in
  formatResponse query searchResults.

Definition handleUserQuery (users : gmap string UserConfig) (now : Z)
    (query uid : string) : list OutgoingMessage :=
  match users !! uid with
  | None => textMessage userNotFoundText
  | Some user =>
      let anyConnected :=
        clientTelegram (platformClients user)
        || clientDiscord (platformClients user)
        || clientSlack (platformClients user) in
      if negb anyConnected then textMessage notConnectedText
      else textMessage (renderResponse formatTimestamp (answerPieces user now query))
  end.
End Handler.

(** The last [n] elements of a list (the whole list when it is shorter). *)
Definition lastN {A : Type} (n : nat) (l : list A) : list A :=
  skipn (length l - n) l.

(** ** Vocabulary of the statements *)

(** The number of messages rendered in a response. *)
Fixpoint countMessages (ps : list Piece) : nat :=
  match ps with
  | [] => 0
  | PMessage _ _ :: ps' => S (countMessages ps')
  | _ :: ps' => countMessages ps'
  end.

(** The pieces that open a platform or a channel section. *)
Definition isHeader (p : Piece) : bool :=
  match p with
  | PPlatformHeader _ | PChannelHeader _ => true
  | _ => false
  end.

Definition isNote (p : Piece) : bool :=
  match p with
  | PNote _ _ => true
  | _ => false
  end.

(** Scanning a response from a count [n] of messages already rendered: every
    header is met with fewer than [MAX_MESSAGES_TO_DISPLAY] messages before
    it. *)
Fixpoint headersBelowCap (n : nat) (ps : list Piece) : bool :=
  match ps with
  | [] => true
  | PMessage _ _ :: ps' => headersBelowCap (S n) ps'
  | p :: ps' =>
      (if isHeader p then (n <? MAX_MESSAGES_TO_DISPLAY)%nat else true)
      && headersBelowCap n ps'
  end.

(** The invariant of the two formatting loops: the counter counts the
    messages rendered so far, it never passes the cap, every header so far
    was opened below the cap, and no note was written. *)
Definition formatInvariant (st : FormatState) : Prop :=
  totalMessagesDisplayed st = countMessages (response st) /\
  totalMessagesDisplayed st <= MAX_MESSAGES_TO_DISPLAY /\
  headersBelowCap 0 (response st) = true /\
  Forall (fun p => isNote p = false) (response st).

(** A local wall-clock value denotes midnight. *)
Definition isMidnight (t : Z) : Prop :=
  JSDate.HourFromTime t = 0%Z /\ JSDate.MinFromTime t = 0%Z /\
  JSDate.SecFromTime t = 0%Z /\ JSDate.msFromTime t = 0%Z.

(** The local wall-clock value of the start of the day that holds [t]. *)
Definition startOfDay (t : Z) : Z := (JSDate.Day t * JSDate.msPerDay)%Z.


(** Sample data used to exercise the statements below. *)
Module Sample.
Definition noClients : PlatformClients := mkClients false false false.
Definition emptyHistory : MessageHistory := mkHistory [] [] [].

Definition telegramMessage (id body title sender : string) (seconds : Z) : Message :=
  mkMessage id body EmptyString seconds 0 title EmptyString sender EmptyString EmptyString.

Definition discordMessage (id body channel author : string) (millis : Z) : Message :=
  mkMessage id EmptyString body 0 millis EmptyString channel EmptyString author EmptyString.

Definition alice : UserConfig := mkUser "alice" (mkClients true true false) emptyHistory.
Definition carol : UserConfig := mkUser "carol" noClients emptyHistory.

Definition users0 : gmap string UserConfig :=
  <["alice" := alice]> (<["carol" := carol]> ∅).

Definition numbered (n : nat) : Message :=
  telegramMessage (JSString.natToString n) "hello" "General" "Ann" (Z.of_nat n).

Definition toGeneral (n : nat) : Delivery :=
  mkDelivery "alice" telegram "general" (numbered n).

Definition deliveries3 : list Delivery :=
  [ toGeneral 1;
    mkDelivery "alice" discord "dev" (discordMessage "x" "build is green" "dev" "Bo" 5);
    toGeneral 2;
    mkDelivery "bob" telegram "general" (numbered 7);
    toGeneral 3 ].
(** Central European time around the change to summer time of 31 March
    2024, 01:00 UTC. *)
Definition berlin : JSDate.TimeZone :=
  JSDate.shiftingZone 1711846800000 3600000 7200000.

(** 2 April 2024, 12:00 UTC. *)
Definition noon2April : Z := 1712059200000.

Definition plainTimestamp : Z -> string := fun _ => "date".

(** A user connected to Discord whose only stored message does not mention
    Discord. *)
Definition activityMessage : Message :=
  discordMessage "41" "Lots of activity in the repo" "dev" "Bo" (noon2April - 1000).

Definition dana : UserConfig :=
  mkUser "dana" (mkClients false true false)
    (mkHistory [] [("dev", [activityMessage])] []).

(** The same, with a message that shares no word with the query. *)
Definition greetingMessage : Message :=
  discordMessage "42" "Hello world" "dev" "Bo" (noon2April - 1000).

Definition erin : UserConfig :=
  mkUser "erin" (mkClients false true false)
    (mkHistory [] [("dev", [greetingMessage])] []).

(** Channel results with [n] messages each, for the formatter. *)
Definition channelResult (name : string) (n : nat) : SearchResult :=
  mkResult (map numbered (seq 1 n)) (mkChannelInfo name name).
End Sample.

(** ** The command handlers and the entry point

    The handlers of [/setup], [/status], [/disconnect] and [/help] and the
    dispatcher [messageHandler].  Calls into the platform libraries are not
    part of the program: whether the [disconnect()] / [destroy()] call of a
    client completes or throws is a parameter, and so are the handlers of
    [/connect] and [/list], which do little else than such calls.  The
    configuration records ([telegramConfig], ...) are not part of the
    modelled user object; where a handler reads them, the value read is an
    argument.  A handler runs to its end without another handler or a
    delivery running in between. *)

(** The result of a call that may throw. *)
Inductive Outcome (A : Type) :=
| Returned (a : A)
| Threw.
Arguments Returned {A} a.
Arguments Threw {A}.

(** [text.split(" ")]: [cur] is the part being read. *)
Fixpoint splitOnAux (sep : ascii) (s cur : string) : list string :=
  match s with
  | EmptyString => [cur]
  | String c s' =>
      if Ascii.eqb c sep then cur :: splitOnAux sep s' EmptyString
      else splitOnAux sep s' (cur +:+ String c EmptyString)
  end.

Definition splitSpaces (text : string) : list string := splitOnAux " " text EmptyString.

(** [parts[1]?.toLowerCase()], with [None] for [undefined]. *)
Definition commandPlatform (text : string) : option string :=
  match nth_error (splitSpaces text) 1 with
  | Some word => Some (JSString.toLowerCase word)
  | None => None
  end.

Definition unsupportedPlatformText (platform : string) : string :=
  "Unsupported platform '" +:+ platform
  +:+ "'. Currently supported platforms are: telegram, discord, slack".

Definition setupTelegramText : string :=
  "To set up Telegram, please provide your API ID and hash by using the command:" +:+ JSString.nl
  +:+ "      " +:+ JSString.nl +:+ "/connect telegram <apiId> <apiHash> <phoneNumber>" +:+ JSString.nl
  +:+ JSString.nl +:+ "You can get your API credentials from https://my.telegram.org/apps".

Definition setupDiscordText : string :=
  "To set up Discord, please provide your bot token by using the command:" +:+ JSString.nl
  +:+ "      " +:+ JSString.nl +:+ "/connect discord <botToken>" +:+ JSString.nl
  +:+ JSString.nl +:+ "You can create a bot and get your token from https://discord.com/developers/applications".

Definition setupSlackText : string :=
  "To set up Slack, please provide your bot token by using the command:" +:+ JSString.nl
  +:+ "      " +:+ JSString.nl +:+ "/connect slack <botToken>" +:+ JSString.nl
  +:+ JSString.nl +:+ "You can create a bot and get your token from https://api.slack.com/apps".

(** [handleSetupCommand(text, userId)]; [!platform] holds for [undefined]
    and for the empty string. *)
Definition handleSetupCommand (text uid : string) : list OutgoingMessage :=
  match commandPlatform text with
  | None | Some EmptyString =>
      textMessage "Please specify a platform: /setup telegram|discord|slack"
  | Some platform =>
      if String.eqb platform "telegram" then textMessage setupTelegramText
      else if String.eqb platform "discord" then textMessage setupDiscordText
      else if String.eqb platform "slack" then textMessage setupSlackText
      else textMessage (unsupportedPlatformText platform)
  end.

(** The counting loop of the status report:
    [for (const messages of history.values()) count += messages.length]. *)
Definition platformMessageCount (platformHistory : list (string * list Message)) : nat :=
  fold_left (fun count entry => count + length (snd entry)) platformHistory 0.

(** [handleStatusCommand(userId)].  [channelCount platform] stands for
    [user.<platform>Config?.channelsToTrack.length || 0]. *)
Definition handleStatusCommand (channelCount : Platform -> nat)
    (users : gmap string UserConfig) (uid : string) : list OutgoingMessage :=
  match users !! uid with
  | None => textMessage userNotFoundText
  | Some user =>
      let status := "📊 **Platform Connection Status**" +:+ JSString.nl +:+ JSString.nl in
      let status := status +:+ "📱 **Telegram**: " in
      let status :=
        if clientTelegram (platformClients user)
        then status +:+ "✅ Connected" +:+ JSString.nl
        else status +:+ "❌ Not connected" +:+ JSString.nl in
      let status := status +:+ "🎮 **Discord**: " in
      let status :=
        if clientDiscord (platformClients user)
        then status +:+ "✅ Connected (tracking "
             +:+ JSString.natToString (channelCount discord) +:+ " channels)" +:+ JSString.nl
        else status +:+ "❌ Not connected" +:+ JSString.nl in
      let status := status +:+ "💼 **Slack**: " in
      let status :=
        if clientSlack (platformClients user)
        then status +:+ "✅ Connected (tracking "
             +:+ JSString.natToString (channelCount slack) +:+ " channels)" +:+ JSString.nl
        else status +:+ "❌ Not connected" +:+ JSString.nl in
      let status := status +:+ JSString.nl +:+ "📝 **Message History**" +:+ JSString.nl in
      let totalMessages := 0 in
      let telegramMessages := platformMessageCount (histTelegram (messageHistory user)) in
      let status :=
        status +:+ "- Telegram: " +:+ JSString.natToString telegramMessages
        +:+ " messages" +:+ JSString.nl in
      let totalMessages := totalMessages + telegramMessages in
      let discordMessages := platformMessageCount (histDiscord (messageHistory user)) in
      let status :=
        status +:+ "- Discord: " +:+ JSString.natToString discordMessages
        +:+ " messages" +:+ JSString.nl in
      let totalMessages := totalMessages + discordMessages in
      let slackMessages := platformMessageCount (histSlack (messageHistory user)) in
      let status :=
        status +:+ "- Slack: " +:+ JSString.natToString slackMessages
        +:+ " messages" +:+ JSString.nl in
      let totalMessages := totalMessages + slackMessages in
      let status :=
        status +:+ JSString.nl +:+ "Total stored messages: "
        +:+ JSString.natToString totalMessages in
      textMessage status
  end.

Definition disconnectUsageText : string :=
  "Please specify a valid platform: /disconnect telegram|discord|slack|all".

(** The inner [disconnectPlatform(platformName)] of the disconnect handler:
    the user object after the call, and the message returned unless the
    client's call threw.  [completes platform] tells whether that call
    completes.  The Slack client and its real-time companion [slackRtm] are
    set together and cleared together; one flag stands for both. *)
Definition disconnectPlatform (completes : Platform -> bool) (user : UserConfig)
    (name : Platform) : UserConfig * Outcome string :=
  let clients := platformClients user in
  match name with
  | telegram =>
      if clientTelegram clients then
        if completes telegram then
          (mkUser (userId user)
             (mkClients false (clientDiscord clients) (clientSlack clients))
             (messageHistory user),
           Returned "✅ Disconnected from Telegram.")
        else (user, Threw)
      else (user, Returned "❌ You are not connected to Telegram.")
  | discord =>
      if clientDiscord clients then
        if completes discord then
          (mkUser (userId user)
             (mkClients (clientTelegram clients) false (clientSlack clients))
             (messageHistory user),
           Returned "✅ Disconnected from Discord.")
        else (user, Threw)
      else (user, Returned "❌ You are not connected to Discord.")
  | slack =>
      if clientSlack clients then
        if completes slack then
          (mkUser (userId user)
             (mkClients (clientTelegram clients) (clientDiscord clients) false)
             (messageHistory user),
           Returned "✅ Disconnected from Slack.")
        else (user, Threw)
      else (user, Returned "❌ You are not connected to Slack.")
  end.

(** The cast [platform as 'telegram' | 'discord' | 'slack']. *)
Definition platformOfName (name : string) : option Platform :=
  if String.eqb name "telegram" then Some telegram
  else if String.eqb name "discord" then Some discord
  else if String.eqb name "slack" then Some slack
  else None.

(** [handleDisconnectCommand(text, userId)]: the [users] table after the
    call, with the mutations made up to a throw kept, and the messages
    returned unless a client's call threw.  The last branch is not reached:
    a validated name other than [all] names a platform. *)
Definition handleDisconnectCommand (completes : Platform -> bool)
    (users : gmap string UserConfig) (text uid : string)
    : gmap string UserConfig * Outcome (list OutgoingMessage) :=
  match commandPlatform text with
  | None | Some EmptyString => (users, Returned (textMessage disconnectUsageText))
  | Some platform =>
      if negb (existsb (String.eqb platform) ["telegram"; "discord"; "slack"; "all"])
      then (users, Returned (textMessage disconnectUsageText))
      else
        match users !! uid with
        | None => (users, Returned (textMessage userNotFoundText))
        | Some user =>
            if String.eqb platform "all" then
              match disconnectPlatform completes user telegram with
              | (user1, Threw) => (<[uid := user1]> users, Threw)
              | (user1, Returned message1) =>
                  let response := EmptyString +:+ message1 +:+ JSString.nl in
                  match disconnectPlatform completes user1 discord with
                  | (user2, Threw) => (<[uid := user2]> users, Threw)
                  | (user2, Returned message2) =>
                      let response := response +:+ message2 +:+ JSString.nl in
                      match disconnectPlatform completes user2 slack with
                      | (user3, Threw) => (<[uid := user3]> users, Threw)
                      | (user3, Returned message3) =>
                          let response := response +:+ message3 in
                          let user4 :=
                            mkUser (userId user3) (platformClients user3)
                              (mkHistory [] [] []) in
                          let response :=
                            response +:+ JSString.nl +:+ JSString.nl
                            +:+ "All message history has been cleared." in
                          (<[uid := user4]> users, Returned (textMessage response))
                      end
                  end
              end
            else
              match platformOfName platform with
              | Some name =>
                  match disconnectPlatform completes user name with
                  | (user1, Threw) => (<[uid := user1]> users, Threw)
                  | (user1, Returned message) =>
                      let response :=
                        message +:+ JSString.nl +:+ JSString.nl
                        +:+ "Message history for this platform has been cleared." in
                      (<[uid := setHistory user1 name []]> users,
                       Returned (textMessage response))
                  end
              | None => (users, Returned (textMessage disconnectUsageText))
              end
        end
  end.

Definition helpText : string :=
  "🤖 **OpenChat Messenger Bot Help**" +:+ JSString.nl
  +:+ JSString.nl +:+ "This bot allows you to integrate your Telegram, Discord, and Slack accounts with OpenChat." +:+ JSString.nl
  +:+ JSString.nl +:+ "**Commands:**" +:+ JSString.nl
  +:+ JSString.nl +:+ "/help - Show this help message" +:+ JSString.nl
  +:+ "/setup <platform> - Get setup instructions for a platform (telegram, discord, slack)" +:+ JSString.nl
  +:+ "/connect <platform> <credentials> - Connect to a messaging platform" +:+ JSString.nl
  +:+ "/status - Check your connection status and message statistics" +:+ JSString.nl
  +:+ "/list <platform> - List available channels/chats for a platform" +:+ JSString.nl
  +:+ "/disconnect <platform> - Disconnect from a platform (use " +:+ JSString.dq +:+ "all" +:+ JSString.dq +:+ " to disconnect from all)" +:+ JSString.nl
  +:+ JSString.nl +:+ "**Asking Questions About Your Messages:**" +:+ JSString.nl
  +:+ JSString.nl +:+ "You can ask natural language questions about your messages, for example:" +:+ JSString.nl
  +:+ JSString.nl +:+ "- " +:+ JSString.dq +:+ "What did John say in the #general Discord channel yesterday?" +:+ JSString.dq +:+ JSString.nl
  +:+ "- " +:+ JSString.dq +:+ "Show me the last 5 messages from my Telegram group 'Work Team'" +:+ JSString.dq +:+ JSString.nl
  +:+ "- " +:+ JSString.dq +:+ "Summarize today's Slack conversation in the #project-alpha channel" +:+ JSString.dq +:+ JSString.nl
  +:+ "- " +:+ JSString.dq +:+ "Did anyone mention the quarterly report in Slack?" +:+ JSString.dq +:+ JSString.nl
  +:+ JSString.nl +:+ "The bot will search through your message history and provide relevant information.".

(** [handleHelpCommand()] *)
Definition handleHelpCommand : list OutgoingMessage := textMessage helpText.

Definition errorText : string :=
  "Sorry, an error occurred while processing your message. Please try again.".

(** The entry created for a user seen for the first time. *)
Definition newUser (userKey : string) : UserConfig :=
  mkUser userKey (mkClients false false false) (mkHistory [] [] []).

Section EntryPoint.
Variable tz : JSDate.TimeZone.
Variable formatTimestamp : Z -> string.
Variable completes : Platform -> bool.
Variable channelCount : Platform -> nat.

(** The handlers of [/connect] and [/list]: the table after the call and
    the messages returned, unless the call threw. *)
Variable handleConnectCommand handleListCommand :
  gmap string UserConfig -> string -> string ->
  gmap string UserConfig * Outcome (list OutgoingMessage).

(** [messageHandler(context, message)], for a message sent by the user
    with key [userKey] at the instant [now]: the table after the call, and
    the messages returned unless the call fails.  [text] is the text of the
    message, [None] when its content carries none: [text.startsWith] then
    throws and the [catch] block answers.  The handlers are asynchronous and
    their promises are returned without [await]: a throw inside a handler
    rejects the promise the entry point returns, past the [catch] block. *)
Definition messageHandler (users : gmap string UserConfig) (now : Z)
    (text : option string) (userKey : string)
    : gmap string UserConfig * Outcome (list OutgoingMessage) :=
  let users1 :=
    match users !! userKey with
    | Some _ => users
    | None => <[userKey := newUser userKey]> users
    end in
  match text with
  | None => (users1, Returned (textMessage errorText))
  | Some text =>
      if JSString.startsWith text "/setup" then
        (users1, Returned (handleSetupCommand text userKey))
      else if JSString.startsWith text "/connect" then
        handleConnectCommand users1 text userKey
      else if JSString.startsWith text "/status" then
        (users1, Returned (handleStatusCommand channelCount users1 userKey))
      else if JSString.startsWith text "/list" then
        handleListCommand users1 text userKey
      else if JSString.startsWith text "/disconnect" then
        handleDisconnectCommand completes users1 text userKey
      else if JSString.startsWith text "/help" then
        (users1, Returned handleHelpCommand)
      else
        (users1, Returned (handleUserQuery tz formatTimestamp users1 now text userKey))
  end.
End EntryPoint.

(** ** Vocabulary of the further statements *)

(** Every tracked channel of every user holds at least one message and at
    most [MAX_HISTORY_PER_CHANNEL]. *)
Definition withinCapacity (users : gmap string UserConfig) : Prop :=
  forall u user p c msgs,
    users !! u = Some user ->
    In (c, msgs) (historyOf (messageHistory user) p) ->
    1 <= length msgs <= MAX_HISTORY_PER_CHANNEL.

(** The list that stands for a [Map] holds no key twice. *)
Definition uniqueKeys (platformHistory : list (string * list Message)) : Prop :=
  NoDup (JSMap.keys platformHistory).

(** The messages rendered in a response, each with the platform it is
    rendered for, in the order of the text. *)
Fixpoint renderedMessages (ps : list Piece) : list (Platform * Message) :=
  match ps with
  | [] => []
  | PMessage platform message :: ps' => (platform, message) :: renderedMessages ps'
  | _ :: ps' => renderedMessages ps'
  end.

(** The matching messages of some search results in display order:
    platform after platform, channel after channel, newest first within a
    channel. *)
Definition displayOrder (searchResults : list (Platform * list SearchResult))
    : list (Platform * Message) :=
  flat_map
    (fun entry =>
       flat_map
         (fun result =>
            map (pair (fst entry)) (sortNewestFirst (fst entry) (messages result)))
         (snd entry))
    searchResults.

(** The messages of a list that carry a given timestamp, in list order. *)
Definition withTimestamp (platform : Platform) (t : Z) (l : list Message) : list Message :=
  List.filter (fun m => (msgTimestamp platform m =? t)%Z) l.

(** [l1] is [l2] with some elements left out, the others in their order. *)
Fixpoint isSubsequence {A : Type} `{EqDecision A} (l1 l2 : list A) : bool :=
  match l1, l2 with
  | [], _ => true
  | _ :: _, [] => false
  | x :: l1', y :: l2' =>
      if decide (x = y) then isSubsequence l1' l2' else isSubsequence l1 l2'
  end.

(** [!!user.platformClients[platform]] *)
Definition connected (user : UserConfig) (platform : Platform) : bool :=
  match platform with
  | telegram => clientTelegram (platformClients user)
  | discord => clientDiscord (platformClients user)
  | slack => clientSlack (platformClients user)
  end.

(* ===================================================================== *)
(** * Part II: properties                                                 *)
(* ===================================================================== *)

(** ** Strings *)

Module JSStringFacts.
Import JSString.

Lemma append_nil_l (b : string) : EmptyString +:+ b = b.
Proof. reflexivity. Qed.

Lemma append_cons (c : ascii) (a b : string) : String c a +:+ b = String c (a +:+ b).
Proof. reflexivity. Qed.

Lemma append_nil_r (a : string) : a +:+ EmptyString = a.
Proof. induction a as [|x a IH]; [reflexivity | now rewrite append_cons, IH]. Qed.

Lemma append_assoc (a b c : string) : (a +:+ b) +:+ c = a +:+ (b +:+ c).
Proof.
  induction a as [|x a IH]; [reflexivity|].
  now rewrite !append_cons, IH.
Qed.

Lemma startsWith_spec (s p : string) :
  startsWith s p = true <-> exists post, s = p +:+ post.
Proof.
  revert s. induction p as [|a p IH]; intros s; simpl.
  - split; [intros _; now exists s | reflexivity].
  - destruct s as [|b s].
    + split; [discriminate | intros [post H]; discriminate].
    + destruct (Ascii.eqb a b) eqn:E.
      * apply Ascii.eqb_eq in E. subst b. rewrite IH. split.
        -- intros [post ->]. now exists post.
        -- intros [post H]. rewrite append_cons in H. injection H as ->.
           now exists post.
      * apply Ascii.eqb_neq in E. split; [discriminate|].
        intros [post H]. rewrite append_cons in H. injection H as -> _.
        now contradiction E.
Qed.

(** [includes] is the substring test. *)
Lemma includes_spec (s sub : string) :
  includes s sub = true <-> exists pre post, s = pre +:+ sub +:+ post.
Proof.
  induction s as [|c s IH].
  - simpl. rewrite orb_false_r, startsWith_spec. split.
    + intros [post H]. now exists EmptyString, post.
    + intros [[|x pre] [post H]]; [now exists post | discriminate].
  - cbn [includes]. rewrite orb_true_iff, startsWith_spec, IH. split.
    + intros [[post H] | [pre [post H]]].
      * now exists EmptyString, post.
      * exists (String c pre), post. now rewrite append_cons, H.
    + intros [[|x pre] [post H]].
      * left. now exists post.
      * right. rewrite append_cons in H. injection H as -> ->. now exists pre, post.
Qed.

Lemma includes_false (s sub : string) :
  includes s sub = false <-> ~ exists pre post, s = pre +:+ sub +:+ post.
Proof. rewrite <- includes_spec. now destruct (includes s sub). Qed.

Lemma includes_refl (s : string) : includes s s = true.
Proof.
  apply includes_spec. exists EmptyString, EmptyString.
  now rewrite append_nil_l, append_nil_r.
Qed.

Lemma includes_trans (s mid sub : string) :
  includes s mid = true -> includes mid sub = true -> includes s sub = true.
Proof.
  rewrite !includes_spec. intros [pre [post ->]] [pre' [post' ->]].
  exists (pre +:+ pre'), (post' +:+ post). now rewrite !append_assoc.
Qed.

Lemma toLowerCase_append (a b : string) :
  toLowerCase (a +:+ b) = toLowerCase a +:+ toLowerCase b.
Proof.
  induction a as [|x a IH]; [reflexivity|].
  rewrite append_cons. simpl. now rewrite IH, append_cons.
Qed.

Lemma lowerChar_idem (c : ascii) : lowerChar (lowerChar c) = lowerChar c.
Proof. destruct c as [[] [] [] [] [] [] [] []]; reflexivity. Qed.

Lemma toLowerCase_idem (s : string) : toLowerCase (toLowerCase s) = toLowerCase s.
Proof.
  induction s as [|c s IH]; simpl; [reflexivity|].
  now rewrite lowerChar_idem, IH.
Qed.

End JSStringFacts.

(** ** Insertion-ordered maps *)

Module JSMapFacts.
Section Facts.
Context {K V : Type} `{EqDecision K}.
Implicit Types (m : list (K * V)) (k : K) (v : V).

Lemma get_set_eq m k v : JSMap.get k (JSMap.set k v m) = Some v.
Proof.
  induction m as [|[k' v'] m IH]; simpl.
  - now rewrite decide_True.
  - destruct (decide (k = k')) as [->|Hne]; simpl.
    + now rewrite decide_True.
    + now rewrite decide_False.
Qed.

Lemma get_set_ne m k k' v : k <> k' -> JSMap.get k' (JSMap.set k v m) = JSMap.get k' m.
Proof.
  intros Hne. induction m as [|[k0 v0] m IH]; simpl.
  - rewrite decide_False; [reflexivity | congruence].
  - destruct (decide (k = k0)) as [->|Hk]; simpl.
    + rewrite !decide_False; [reflexivity | congruence | congruence].
    + destruct (decide (k' = k0)); [reflexivity | exact IH].
Qed.

Lemma has_get m k : JSMap.has k m = true <-> is_Some (JSMap.get k m).
Proof.
  unfold JSMap.has. destruct (JSMap.get k m); split; try discriminate; eauto.
  intros [x Hx]. discriminate.
Qed.

Lemma get_In m k v : JSMap.get k m = Some v -> In (k, v) m.
Proof.
  induction m as [|[k' v'] m IH]; simpl; [discriminate|].
  destruct (decide (k = k')) as [->|Hne].
  - intros [= ->]. now left.
  - intros Hg. right. now apply IH.
Qed.

Lemma get_None m k : JSMap.get k m = None <-> ~ In k (JSMap.keys m).
Proof.
  induction m as [|[k' v'] m IH]; simpl; [tauto|].
  destruct (decide (k = k')) as [->|Hne].
  - split; [discriminate | intros Hn; exfalso; apply Hn; now left].
  - rewrite IH. split; [intros Hn [He|Hi]; [congruence | tauto] | tauto].
Qed.

Lemma keys_set_In m k k' v :
  In k' (JSMap.keys (JSMap.set k v m)) <-> k' = k \/ In k' (JSMap.keys m).
Proof.
  induction m as [|[k0 v0] m IH]; simpl.
  - intuition congruence.
  - destruct (decide (k = k0)) as [->|Hne]; simpl.
    + intuition congruence.
    + rewrite IH. intuition congruence.
Qed.
End Facts.
End JSMapFacts.

(** ** The message history store *)

Section StoreFacts.
Implicit Types (users : gmap string UserConfig) (u : string) (p : Platform)
  (c : string) (m : Message) (l : list Message).

Lemma historyOf_setHistory_eq (cfg : UserConfig) p h :
  historyOf (messageHistory (setHistory cfg p h)) p = h.
Proof. now destruct p. Qed.

Lemma historyOf_setHistory_ne (cfg : UserConfig) p p' h :
  p <> p' ->
  historyOf (messageHistory (setHistory cfg p h)) p' = historyOf (messageHistory cfg) p'.
Proof. destruct p, p'; simpl; intros Hne; congruence. Qed.

Lemma platformClients_setHistory (cfg : UserConfig) p h :
  platformClients (setHistory cfg p h) = platformClients cfg.
Proof. reflexivity. Qed.

(** A delivery to a known user leaves the message list of the addressed
    channel with the new message pushed and, above the limit, its head
    shifted out. *)
Lemma storedMessages_store_same users u p c m :
  is_Some (users !! u) ->
  storedMessages (storeMessage users u p c m) u p c =
    let pushed := storedMessages users u p c ++ [m] in
    if (MAX_HISTORY_PER_CHANNEL <? length pushed)%nat then shift pushed else pushed.
Proof.
  intros [cfg Hcfg]. unfold storedMessages, storeMessage. rewrite Hcfg.
  set (hist := historyOf (messageHistory cfg) p).
  unfold JSMap.has. destruct (JSMap.get c hist) as [old|] eqn:Hget.
  - rewrite Hget. rewrite lookup_insert_eq, historyOf_setHistory_eq.
    now rewrite JSMapFacts.get_set_eq.
  - rewrite JSMapFacts.get_set_eq.
    rewrite lookup_insert_eq, historyOf_setHistory_eq.
    now rewrite JSMapFacts.get_set_eq.
Qed.

(** Every other channel, platform and user keeps its messages. *)
Lemma storedMessages_store_other users u p c m u' p' c' :
  ~ (u' = u /\ p' = p /\ c' = c) ->
  storedMessages (storeMessage users u p c m) u' p' c' = storedMessages users u' p' c'.
Proof.
  intros Hne. unfold storedMessages, storeMessage.
  destruct (users !! u) as [cfg|] eqn:Hcfg; [|reflexivity].
  set (hist := historyOf (messageHistory cfg) p).
  assert (Hkey : forall h',
    (forall k, k <> c -> JSMap.get k h' = JSMap.get k hist) ->
    match <[u := setHistory cfg p h']> users !! u' with
    | Some user =>
        match JSMap.get c' (historyOf (messageHistory user) p') with
        | Some l => l | None => []
        end
    | None => []
    end =
    match users !! u' with
    | Some user =>
        match JSMap.get c' (historyOf (messageHistory user) p') with
        | Some l => l | None => []
        end
    | None => []
    end).
  { intros h' Hh'. destruct (decide (u' = u)) as [->|Hu].
    - rewrite lookup_insert_eq, Hcfg.
      destruct (decide (p' = p)) as [->|Hp].
      + rewrite historyOf_setHistory_eq. fold hist.
        rewrite Hh'; [reflexivity|]. intros ->. now apply Hne.
      + now rewrite historyOf_setHistory_ne by congruence.
    - now rewrite lookup_insert_ne by congruence. }
  unfold JSMap.has. destruct (JSMap.get c hist) as [old|] eqn:Hget.
  - rewrite Hget. apply Hkey. intros k Hk.
    now rewrite JSMapFacts.get_set_ne by congruence.
  - rewrite JSMapFacts.get_set_eq. apply Hkey. intros k Hk.
    now rewrite !JSMapFacts.get_set_ne by congruence.
Qed.

Lemma storeMessage_keeps_user users u p c m u' :
  is_Some (users !! u') -> is_Some (storeMessage users u p c m !! u').
Proof.
  intros Hu'. unfold storeMessage.
  destruct (users !! u) as [cfg|] eqn:Hcfg; [|exact Hu'].
  destruct (JSMap.get c _);
    (destruct (decide (u = u')) as [->|Hne];
     [rewrite lookup_insert_eq; eauto | now rewrite lookup_insert_ne]).
Qed.

Lemma deliverAll_keeps_user users (ds : list Delivery) u :
  is_Some (users !! u) -> is_Some (deliverAll users ds !! u).
Proof.
  revert users. induction ds as [|d ds IH]; intros users Hu; [exact Hu|].
  apply IH. now apply storeMessage_keeps_user.
Qed.

Lemma deliverAll_snoc users (ds : list Delivery) (d : Delivery) :
  deliverAll users (ds ++ [d]) = deliver (deliverAll users ds) d.
Proof. unfold deliverAll. now rewrite fold_left_app. Qed.

Lemma messagesFor_snoc u p c (ds : list Delivery) (d : Delivery) :
  messagesFor u p c (ds ++ [d]) =
    messagesFor u p c ds ++ (if addressedTo u p c d then [dMessage d] else []).
Proof.
  unfold messagesFor. rewrite List.filter_app, map_app. simpl.
  now destruct (addressedTo u p c d).
Qed.

Lemma lastN_length {A} (n : nat) (l : list A) : length (lastN n l) = Nat.min (length l) n.
Proof. unfold lastN. rewrite length_skipn. lia. Qed.

Lemma lastN_all {A} (n : nat) (l : list A) : length l <= n -> lastN n l = l.
Proof. intros H. unfold lastN. now replace (length l - n) with 0 by lia. Qed.

Lemma lastN_push {A} (n : nat) (l : list A) (x : A) :
  lastN n (lastN n l ++ [x]) = lastN n (l ++ [x]).
Proof.
  destruct (Nat.eq_dec n 0) as [->|Hn].
  { unfold lastN. rewrite !Nat.sub_0_r. now rewrite !skipn_all. }
  destruct (le_lt_dec (length l) n) as [Hle|Hgt].
  - now rewrite (lastN_all n l Hle).
  - unfold lastN at 1 3. rewrite length_app, (lastN_length n l), length_app. simpl.
    unfold lastN. rewrite (skipn_app (length l + 1 - n)).
    replace (length l + 1 - n - length l) with 0 by lia.
    replace (Nat.min (length l) n + 1 - n) with 1 by lia.
    replace (length l + 1 - n) with (1 + (length l - n)) by lia.
    rewrite <- skipn_skipn. simpl skipn at 3.
    destruct (skipn (length l - n) l) as [|y t] eqn:E; [|reflexivity].
    apply (f_equal (@length A)) in E. rewrite length_skipn in E. simpl in E. lia.
Qed.

(** One bounded push is the window of the last [MAX_HISTORY_PER_CHANNEL]
    elements sliding by one. *)
Lemma bounded_push_lastN l m :
  length l <= MAX_HISTORY_PER_CHANNEL ->
  (let pushed := l ++ [m] in
   if (MAX_HISTORY_PER_CHANNEL <? length pushed)%nat then shift pushed else pushed)
  = lastN MAX_HISTORY_PER_CHANNEL (l ++ [m]).
Proof.
  intros Hle. cbv zeta. unfold lastN. rewrite length_app. simpl length.
  destruct (MAX_HISTORY_PER_CHANNEL <? length l + 1)%nat eqn:E.
  - apply Nat.ltb_lt in E.
    replace (length l + 1 - MAX_HISTORY_PER_CHANNEL) with 1 by lia.
    unfold shift. now destruct (l ++ [m]).
  - apply Nat.ltb_ge in E.
    now replace (length l + 1 - MAX_HISTORY_PER_CHANNEL) with 0 by lia.
Qed.

(** The state of one channel after any run of deliveries. *)
Lemma storedMessages_deliverAll users (ds : list Delivery) u p c :
  is_Some (users !! u) ->
  length (storedMessages users u p c) <= MAX_HISTORY_PER_CHANNEL ->
  storedMessages (deliverAll users ds) u p c =
    lastN MAX_HISTORY_PER_CHANNEL (storedMessages users u p c ++ messagesFor u p c ds).
Proof.
  intros Hu Hlen. induction ds as [|d ds IH] using rev_ind.
  - unfold messagesFor. simpl. rewrite app_nil_r. now rewrite lastN_all.
  - rewrite deliverAll_snoc, messagesFor_snoc. unfold deliver.
    unfold addressedTo. destruct (bool_decide _) eqn:E.
    + apply bool_decide_eq_true in E. destruct E as (Eu & Ep & Ec).
      rewrite Eu, Ep, Ec.
      rewrite storedMessages_store_same by now apply deliverAll_keeps_user.
      rewrite IH. rewrite bounded_push_lastN.
      * now rewrite lastN_push, <- !app_assoc.
      * rewrite lastN_length. lia.
    + apply bool_decide_eq_false in E.
      rewrite storedMessages_store_other.
      * now rewrite IH, app_nil_r.
      * intros (-> & -> & ->). now apply E.
Qed.
End StoreFacts.

(** C1. Bounded FIFO retention.  For a user present in the store and a
    channel that holds no message yet, after any run of [storeMessage] calls
    (to this and to any other channel or user) of which [N] are addressed to
    the channel, the channel holds [min N 500] messages, namely the last
    [min N 500] of those appended to it, in arrival order; and a further
    append to a channel that holds exactly 500 messages drops exactly its
    head, while below the limit nothing is dropped. *)
Theorem bounded_fifo_retention (users : gmap string UserConfig)
    (ds : list Delivery) (u : string) (p : Platform) (c : string) :
  is_Some (users !! u) ->
  storedMessages users u p c = [] ->
  let appended := messagesFor u p c ds in
  let N := length appended in
  let stored := storedMessages (deliverAll users ds) u p c in
  length stored = Nat.min N 500 /\
  stored = lastN (Nat.min N 500) appended /\
  (forall m : Message,
     storedMessages (storeMessage (deliverAll users ds) u p c m) u p c =
       if (length stored =? 500)%nat then tl stored ++ [m] else stored ++ [m]).
Proof.
  intros Hu Hempty appended N stored.
  assert (Hstored : stored = lastN 500 appended).
  { unfold stored. rewrite storedMessages_deliverAll; [|exact Hu|].
    - now rewrite Hempty.
    - rewrite Hempty. simpl. lia. }
  assert (Hlen : length stored = Nat.min N 500).
  { rewrite Hstored, lastN_length. reflexivity. }
  split; [exact Hlen|]. split.
  - rewrite Hstored. unfold lastN. fold N. f_equal. lia.
  - intros m.
    rewrite storedMessages_store_same by now apply deliverAll_keeps_user.
    fold stored. cbv zeta. rewrite length_app. simpl length.
    change MAX_HISTORY_PER_CHANNEL with 500.
    destruct (length stored =? 500)%nat eqn:E.
    + apply Nat.eqb_eq in E. rewrite E. simpl.
      unfold shift. destruct stored; [discriminate | reflexivity].
    + apply Nat.eqb_neq in E.
      destruct (500 <? length stored + 1)%nat eqn:E'; [|reflexivity].
      apply Nat.ltb_lt in E'. lia.
Qed.

Lemma bounded_fifo_retention_witness :
  is_Some (Sample.users0 !! "alice") /\
  storedMessages Sample.users0 "alice" telegram "general" = [] /\
  length (storedMessages (deliverAll Sample.users0 Sample.deliveries3)
            "alice" telegram "general") = 3.
Proof.
  split; [eexists; reflexivity|]. split; [reflexivity|].
  apply (bounded_fifo_retention Sample.users0 Sample.deliveries3 "alice" telegram "general");
    [eexists; reflexivity | reflexivity].
Defined.

(** The retention example of the specification: appending messages numbered
    1 to 501 to one Telegram channel leaves those numbered 2 to 501. *)
Example retention_501 :
  map msgId
    (storedMessages (deliverAll Sample.users0 (map Sample.toGeneral (seq 1 501)))
       "alice" telegram "general")
  = map JSString.natToString (seq 2 500).
Proof. vm_compute. reflexivity. Qed.

(** C10. A [storeMessage] call for a user id that is not in the [users]
    table changes nothing: the table is returned as it was, no entry is
    created for that id, and the stored messages of every user, platform and
    channel are the same as before. *)
Theorem storeMessage_unknown_user (users : gmap string UserConfig)
    (u : string) (p : Platform) (c : string) (m : Message) :
  users !! u = None ->
  storeMessage users u p c m = users /\
  storeMessage users u p c m !! u = None /\
  (forall u' p' c',
     storedMessages (storeMessage users u p c m) u' p' c' = storedMessages users u' p' c').
Proof.
  intros Hnone. assert (Heq : storeMessage users u p c m = users).
  { unfold storeMessage. now rewrite Hnone. }
  rewrite Heq. auto.
Qed.

Lemma storeMessage_unknown_user_witness :
  Sample.users0 !! "bob" = None /\
  storeMessage Sample.users0 "bob" telegram "general" (Sample.numbered 7) = Sample.users0.
Proof.
  split; [reflexivity|].
  apply (storeMessage_unknown_user Sample.users0 "bob" telegram "general" (Sample.numbered 7)).
  reflexivity.
Defined.

(** ** The query interpreter *)

Section InterpreterFacts.
Import JSString.


Lemma mentionsAny_false (query : string) (keywords : list string) :
  mentionsAny query keywords = false <->
  forall keyword, In keyword keywords -> includes (toLowerCase query) keyword = false.
Proof.
  unfold mentionsAny. induction keywords as [|k ks IH]; simpl.
  - split; [intros _ k [] | reflexivity].
  - rewrite orb_false_iff, IH. split.
    + intros [Hk Hks] k' [<-|Hin]; auto.
    + intros Hall. split; [apply Hall; now left | intros k' Hin; apply Hall; now right].
Qed.

Lemma mentionsAny_true_intro (query keyword : string) (keywords : list string) :
  In keyword keywords -> includes (toLowerCase query) keyword = true ->
  mentionsAny query keywords = true.
Proof.
  intros Hin Hk. unfold mentionsAny. apply existsb_exists. now exists keyword.
Qed.


(** The keyword cascade of [detectTimeRange], range by range. *)
Lemma detectTimeRange_cascade (query : string) :
  detectTimeRange query =
    if mentionsAny query ["recent"; "latest"; "last"; "newest"] then "recent"
    else if mentionsAny query ["today"; "this day"] then "today"
    else if mentionsAny query ["yesterday"; "past day"] then "yesterday"
    else if mentionsAny query ["this week"; "past week"; "last 7 days"] then "thisWeek"
    else "recent".
Proof. reflexivity. Qed.
End InterpreterFacts.


(** C9, as it holds.  A query whose lowercased text contains "yesterday" or
    "past day" and none of "recent", "latest", "last", "newest" is given the
    range today when it also contains "today" or "this day", and the range
    yesterday otherwise: the keyword "yesterday" does reach the yesterday
    range, since "today" is not a substring of "yesterday". *)
Theorem yesterday_queries (query : string) :
  JSString.includes (JSString.toLowerCase query) "yesterday" = true \/
  JSString.includes (JSString.toLowerCase query) "past day" = true ->
  (forall keyword, In keyword ["recent"; "latest"; "last"; "newest"] ->
     JSString.includes (JSString.toLowerCase query) keyword = false) ->
  detectTimeRange query =
    if JSString.includes (JSString.toLowerCase query) "today"
       || JSString.includes (JSString.toLowerCase query) "this day"
    then "today" else "yesterday".
Proof.
  intros Hy Hrecent. rewrite detectTimeRange_cascade.
  apply mentionsAny_false in Hrecent. rewrite Hrecent.
  assert (Hyes : mentionsAny query ["yesterday"; "past day"] = true).
  { destruct Hy as [Hy|Hy];
      [apply (mentionsAny_true_intro query "yesterday") |
       apply (mentionsAny_true_intro query "past day")]; simpl; auto. }
  rewrite Hyes. unfold mentionsAny at 1. simpl existsb.
  rewrite orb_false_r. reflexivity.
Qed.

Lemma yesterday_queries_witness :
  (JSString.includes (JSString.toLowerCase "What did John say yesterday?") "yesterday" = true \/
   JSString.includes (JSString.toLowerCase "What did John say yesterday?") "past day" = true) /\
  (forall keyword, In keyword ["recent"; "latest"; "last"; "newest"] ->
     JSString.includes (JSString.toLowerCase "What did John say yesterday?") keyword = false) /\
  detectTimeRange "What did John say yesterday?" = "yesterday".
Proof.
  assert (H1 : JSString.includes (JSString.toLowerCase "What did John say yesterday?")
                 "yesterday" = true \/
               JSString.includes (JSString.toLowerCase "What did John say yesterday?")
                 "past day" = true) by (left; reflexivity).
  assert (H2 : forall keyword, In keyword ["recent"; "latest"; "last"; "newest"] ->
     JSString.includes (JSString.toLowerCase "What did John say yesterday?") keyword = false).
  { intros k [<-|[<-|[<-|[<-|[]]]]]; reflexivity. }
  split; [exact H1|]. split; [exact H2|].
  exact (yesterday_queries "What did John say yesterday?" H1 H2).
Defined.

(** C9, as stated, fails: the query "yesterday" contains "yesterday" and none
    of the keywords of recent, and its range is yesterday, not today. *)
Lemma yesterday_not_today :
  JSString.includes (JSString.toLowerCase "yesterday") "yesterday" = true /\
  mentionsAny "yesterday" ["recent"; "latest"; "last"; "newest"] = false /\
  JSString.includes (JSString.toLowerCase "yesterday") "past day" = false /\
  detectTimeRange "yesterday" = "yesterday" /\
  detectTimeRange "yesterday" <> "today".
Proof. repeat split; try reflexivity. discriminate. Qed.

(** ** The search engine *)

Section SearchFacts.
Import JSString.
Implicit Types (platform : Platform) (h : list (string * list Message))
  (keywords channelHints : list string) (cutoff : Z) (m : Message).



Lemma filter_nil_all {A} (f : A -> bool) (l : list A) :
  List.filter f l = [] <-> forall x, In x l -> f x = false.
Proof.
  induction l as [|a l IH]; simpl.
  - split; [intros _ x [] | reflexivity].
  - destruct (f a) eqn:E.
    + split; [discriminate | intros H; specialize (H a (or_introl eq_refl)); congruence].
    + rewrite IH. split.
      * intros H x [<-|Hx]; auto.
      * intros H x Hx. apply H. now right.
Qed.

Lemma length_pos_nonempty {A} (l : list A) : (0 <? length l)%nat = true <-> l <> [].
Proof. destruct l; unfold Nat.ltb; simpl; split; intros; congruence. Qed.

Lemma searchChannels_In platform h keywords cutoff (channels : list string)
    (r : SearchResult) :
  In r (searchChannels platform h keywords cutoff channels) <->
  exists channelId first rest,
    In channelId channels /\
    channelMessagesOf h channelId = first :: rest /\
    List.filter (messageMatches platform keywords cutoff) (first :: rest) <> [] /\
    r = mkResult (List.filter (messageMatches platform keywords cutoff) (first :: rest))
          (mkChannelInfo channelId (msgChannelName platform first)).
Proof.
  induction channels as [|c cs IH]; cbn [searchChannels].
  - split; [intros [] | intros (? & ? & ? & [] & _)].
  - destruct (channelMessagesOf h c) as [|first rest] eqn:Hc.
    + rewrite IH. split.
      * intros (c' & f & t & Hin & H). exists c', f, t. split; [now right | exact H].
      * intros (c' & f & t & [<-|Hin] & Hm & H); [congruence|].
        exists c', f, t. auto.
    + set (matching := List.filter (messageMatches platform keywords cutoff) (first :: rest)).
      destruct (0 <? length matching)%nat eqn:Elen.
      * apply length_pos_nonempty in Elen. cbn [In]. rewrite IH. split.
        -- intros [<- | (c' & f & t & Hin & H)].
           ++ exists c, first, rest. repeat split; auto.
           ++ exists c', f, t. split; [now right | exact H].
        -- intros (c' & f & t & [<-|Hin] & Hm & Hne & ->).
           ++ left. rewrite Hc in Hm. now injection Hm as <- <-.
           ++ right. exists c', f, t. auto.
      * assert (Hnil : matching = []).
        { destruct matching; [reflexivity | discriminate]. }
        rewrite IH. split.
        -- intros (c' & f & t & Hin & H). exists c', f, t. split; [now right | exact H].
        -- intros (c' & f & t & [<-|Hin] & Hm & Hne & Hr).
           ++ rewrite Hc in Hm. injection Hm as <- <-. now contradiction Hne.
           ++ exists c', f, t. auto.
Qed.

(** No channel is reported when no stored message passes the filter. *)
Lemma searchChannels_nil platform h keywords cutoff (channels : list string) :
  (forall c m, In c channels -> In m (channelMessagesOf h c) ->
     messageMatches platform keywords cutoff m = false) ->
  searchChannels platform h keywords cutoff channels = [].
Proof.
  intros Hnone.
  destruct (searchChannels platform h keywords cutoff channels) as [|r rs] eqn:E;
    [reflexivity|].
  assert (Hin : In r (searchChannels platform h keywords cutoff channels))
    by (rewrite E; now left).
  apply searchChannels_In in Hin. destruct Hin as (c & f & t & Hc & Hm & Hne & _).
  exfalso. apply Hne. apply filter_nil_all.
  intros x Hx. apply Hnone with c; [exact Hc | now rewrite Hm].
Qed.


Lemma channelsToSearch_subset platform h channelHints (c : string) :
  In c (channelsToSearch platform h channelHints) -> In c (JSMap.keys h).
Proof.
  unfold channelsToSearch. destruct (0 <? length channelHints)%nat; [|auto].
  rewrite List.filter_In. tauto.
Qed.

Lemma channelMessagesOf_In h (c : string) m :
  In m (channelMessagesOf h c) -> exists msgs, In (c, msgs) h /\ In m msgs.
Proof.
  unfold channelMessagesOf. destruct (JSMap.get c h) as [l|] eqn:E; [|intros []].
  intros Hin. exists l. split; [now apply JSMapFacts.get_In | exact Hin].
Qed.
End SearchFacts.



(** ** Trigger words as content keywords *)

Lemma messageMatches_no_keyword (platform : Platform) (keywords : list string)
    (cutoff : Z) (m : Message) :
  keywords <> [] ->
  (forall k, In k keywords ->
     JSString.includes (JSString.toLowerCase (msgText platform m))
       (JSString.toLowerCase k) = false) ->
  messageMatches platform keywords cutoff m = false.
Proof.
  intros Hne Hnone. unfold messageMatches.
  destruct (msgTimestamp platform m <? cutoff)%Z; [reflexivity|].
  destruct keywords as [|k ks]; [congruence|]. cbn [length Nat.eqb].
  apply not_true_is_false. rewrite existsb_exists.
  intros [k' [Hin Hk']]. rewrite (Hnone k' Hin) in Hk'. discriminate.
Qed.

(** C5, as it holds.  The query "recent discord activity" selects the
    platform discord and keeps the trigger words "recent" and "discord" among
    its content keywords, which are "recent", "discord" and "activity".  A
    message matches when its text contains any one of them, so the search
    yields no match when no stored Discord message contains, letter case
    aside, any of the three keywords. *)
Theorem keyword_self_reference (tz : JSDate.TimeZone) (user : UserConfig) (now : Z) :
  (forall c msgs m,
     In (c, msgs) (histDiscord (messageHistory user)) -> In m msgs ->
     forall k, In k ["recent"; "discord"; "activity"] ->
       JSString.includes (JSString.toLowerCase (content m)) k = false) ->
  queryWords "recent discord activity" = ["recent"; "discord"; "activity"] /\
  detectPlatforms "recent discord activity" user = [discord] /\
  searchMessages tz user now discord
    (queryWords "recent discord activity")
    (channelMentions "recent discord activity")
    (detectTimeRange "recent discord activity") = [] /\
  answerPieces tz user now "recent discord activity"
    = [PNoMatch "recent discord activity"].
Proof.
  intros Hnone.
  assert (Hsearch : searchMessages tz user now discord
            (queryWords "recent discord activity")
            (channelMentions "recent discord activity")
            (detectTimeRange "recent discord activity") = []).
  { unfold searchMessages. apply searchChannels_nil.
    intros c m Hc Hm. apply channelMessagesOf_In in Hm.
    destruct Hm as (msgs & Hentry & Hm).
    apply messageMatches_no_keyword; [discriminate|].
    intros k Hk.
    change (queryWords "recent discord activity")
      with ["recent"; "discord"; "activity"] in Hk.
    assert (Hlow : JSString.toLowerCase k = k).
    { destruct Hk as [<-|[<-|[<-|[]]]]; reflexivity. }
    rewrite Hlow. exact (Hnone c msgs m Hentry Hm k Hk). }
  split; [reflexivity|]. split; [reflexivity|]. split; [exact Hsearch|].
  unfold answerPieces.
  change (detectPlatforms "recent discord activity" user) with [discord].
  cbn [searchPlatforms]. rewrite Hsearch. reflexivity.
Qed.

Lemma keyword_self_reference_witness :
  (forall c msgs m,
     In (c, msgs) (histDiscord (messageHistory Sample.erin)) -> In m msgs ->
     forall k, In k ["recent"; "discord"; "activity"] ->
       JSString.includes (JSString.toLowerCase (content m)) k = false) /\
  searchMessages Sample.berlin Sample.erin Sample.noon2April discord
    (queryWords "recent discord activity")
    (channelMentions "recent discord activity")
    (detectTimeRange "recent discord activity") = [].
Proof.
  assert (H : forall c msgs m,
     In (c, msgs) (histDiscord (messageHistory Sample.erin)) -> In m msgs ->
     forall k, In k ["recent"; "discord"; "activity"] ->
       JSString.includes (JSString.toLowerCase (content m)) k = false).
  { intros c msgs m [[= <- <-]|[]] [<-|[]] k [<-|[<-|[<-|[]]]]; reflexivity. }
  split; [exact H|].
  exact (proj1 (proj2 (proj2
    (keyword_self_reference Sample.berlin Sample.erin Sample.noon2April H)))).
Defined.

(** C5, as stated, fails: the only stored message of this user does not
    contain "discord", the query selects the platform discord, and the
    search still returns that message, matched by the keyword "activity". *)
Lemma keyword_quirk_any_keyword_matches :
  detectPlatforms "recent discord activity" Sample.dana = [discord] /\
  messageHistory Sample.dana = mkHistory [] [("dev", [Sample.activityMessage])] [] /\
  JSString.includes (JSString.toLowerCase (content Sample.activityMessage)) "discord"
    = false /\
  searchMessages Sample.berlin Sample.dana Sample.noon2April discord
    (queryWords "recent discord activity")
    (channelMentions "recent discord activity")
    (detectTimeRange "recent discord activity")
  = [mkResult [Sample.activityMessage] (mkChannelInfo "dev" "dev")].
Proof. repeat split. Qed.

(** ** Dates and the search cutoff *)

Module JSDateFacts.
Import JSDate.
Local Open Scope Z_scope.

Lemma DayFromYear_step (y : Z) : DayFromYear (y + 1) = DayFromYear y + DaysInYear y.
Proof.
  unfold DayFromYear, DaysInYear.
  destruct (y mod 4 =? 0) eqn:E4; destruct (y mod 100 =? 0) eqn:E100;
    destruct (y mod 400 =? 0) eqn:E400; simpl;
    rewrite ?Z.eqb_eq, ?Z.eqb_neq in *; Z.to_euclidean_division_equations; lia.
Qed.

(** [YearFromTime] is the year whose span of days holds the day of [t]. *)
Lemma YearFromTime_spec (t : Z) :
  DayFromYear (YearFromTime t) <= Day t < DayFromYear (YearFromTime t + 1).
Proof.
  unfold YearFromTime. set (d := Day t). clearbody d.
  set (y0 := 1970 + (400 * d) / 146097).
  assert (H0 : 146097 * (y0 - 1970) <= 400 * d < 146097 * (y0 - 1970) + 146097).
  { unfold y0. Z.to_euclidean_division_equations; lia. }
  clearbody y0.
  destruct (DayFromYear (y0 + 1) <=? d) eqn:E1;
    [|destruct (DayFromYear y0 <=? d) eqn:E2];
    rewrite ?Z.leb_le, ?Z.leb_gt in *; unfold DayFromYear in *;
    Z.to_euclidean_division_equations; lia.
Qed.

Lemma DayWithinYear_range (t : Z) : 0 <= DayWithinYear t < DaysInYear (YearFromTime t).
Proof.
  unfold DayWithinYear. pose proof (YearFromTime_spec t) as H.
  rewrite DayFromYear_step in H. lia.
Qed.

Lemma MonthFromTime_range (t : Z) : 0 <= MonthFromTime t <= 11.
Proof.
  unfold MonthFromTime.
  repeat match goal with |- context [if ?b then _ else _] => destruct b end; lia.
Qed.

(** The day of the month counts from the first day of the month. *)
Lemma DateFromTime_monthStart (t : Z) :
  DateFromTime t = DayWithinYear t - monthStart (MonthFromTime t) (InLeapYear t) + 1.
Proof.
  unfold DateFromTime, MonthFromTime.
  repeat match goal with |- context [if ?b then _ else _] => destruct b end;
    simpl; lia.
Qed.

(** Setting the day of the month relative to the current one moves the day
    number by the same amount, across month and year ends. *)
Lemma MakeDay_shift (t k : Z) :
  MakeDay (YearFromTime t) (MonthFromTime t) (DateFromTime t + k) = Day t + k.
Proof.
  unfold MakeDay. pose proof (MonthFromTime_range t) as Hm.
  rewrite Z.div_small, Z.mod_small by lia. rewrite Z.add_0_r.
  rewrite DateFromTime_monthStart. unfold InLeapYear, DayWithinYear. lia.
Qed.

Lemma MakeDate_Day (t k : Z) :
  MakeDate (Day t + k) (TimeWithinDay t) = t + k * msPerDay.
Proof.
  unfold MakeDate, Day, TimeWithinDay, msPerDay.
  Z.to_euclidean_division_equations; lia.
Qed.

Section Zone.
Variable tz : TimeZone.

(** [d.setDate(d.getDate() + k)] moves the local wall-clock reading by [k]
    whole days. *)
Lemma setDate_getDate (d k : Z) :
  setDate tz d (getDate tz d + k) = UTC tz (LocalTime tz d + k * msPerDay).
Proof.
  unfold setDate, getDate. now rewrite MakeDay_shift, MakeDate_Day.
Qed.

(** [d.setHours(0, 0, 0, 0)] is the instant of the local midnight that
    starts the local day of [d]. *)
Lemma setHours_midnight (d : Z) :
  setHours tz d 0 0 0 0 = UTC tz (startOfDay (LocalTime tz d)).
Proof.
  unfold setHours, startOfDay, MakeDate, MakeTime. f_equal. lia.
Qed.
End Zone.

Lemma startOfDay_isMidnight (t : Z) : isMidnight (startOfDay t).
Proof.
  unfold isMidnight, startOfDay, HourFromTime, MinFromTime, SecFromTime, msFromTime,
    msPerDay, msPerHour, msPerMinute, msPerSecond.
  set (d := Day t). clearbody d.
  repeat split; Z.to_euclidean_division_equations; lia.
Qed.

Lemma startOfDay_same_day (t : Z) :
  Day (startOfDay t) = Day t /\ startOfDay t <= t < startOfDay t + msPerDay.
Proof.
  unfold startOfDay, Day, msPerDay. Z.to_euclidean_division_equations; lia.
Qed.

Lemma startOfDay_shift (t k : Z) :
  startOfDay (t + k * msPerDay) = startOfDay t + k * msPerDay.
Proof.
  unfold startOfDay, Day, msPerDay. rewrite Z.div_add by lia. lia.
Qed.

Lemma startOfDay_pred (t : Z) :
  Day (t - msPerDay) * msPerDay = startOfDay t - msPerDay.
Proof.
  replace (t - msPerDay) with (t + (-1) * msPerDay) by lia.
  change (Day (t + -1 * msPerDay) * msPerDay) with (startOfDay (t + (-1) * msPerDay)).
  rewrite startOfDay_shift. lia.
Qed.

(** In a zone with a fixed offset, wall-clock readings and instants
    correspond one to one. *)
Lemma fixedZone_roundtrip (offset t : Z) :
  LocalTime (fixedZone offset) (UTC (fixedZone offset) t) = t /\
  UTC (fixedZone offset) (LocalTime (fixedZone offset) t) = t.
Proof. unfold LocalTime, UTC, fixedZone. lia. Qed.

End JSDateFacts.

Section CutoffFacts.
Import JSDate.
Local Open Scope Z_scope.
Variable tz : TimeZone.

Lemma cutoffTime_today (now : Z) :
  cutoffTime tz now "today" = UTC tz (startOfDay (LocalTime tz now)).
Proof. unfold cutoffTime. simpl. apply JSDateFacts.setHours_midnight. Qed.

Lemma cutoffTime_yesterday (now : Z) :
  cutoffTime tz now "yesterday" =
    UTC tz (startOfDay (LocalTime tz (UTC tz (LocalTime tz now - msPerDay)))).
Proof.
  unfold cutoffTime. simpl.
  rewrite JSDateFacts.setHours_midnight.
  replace (getDate tz now - 1) with (getDate tz now + -1) by lia.
  rewrite JSDateFacts.setDate_getDate.
  now replace (LocalTime tz now + -1 * msPerDay) with (LocalTime tz now - msPerDay) by lia.
Qed.

Lemma cutoffTime_thisWeek (now : Z) :
  cutoffTime tz now "thisWeek" = UTC tz (LocalTime tz now - 7 * msPerDay).
Proof.
  unfold cutoffTime, getTime. simpl.
  replace (getDate tz now - 7) with (getDate tz now + -7) by lia.
  rewrite JSDateFacts.setDate_getDate.
  now replace (LocalTime tz now + -7 * msPerDay) with (LocalTime tz now - 7 * msPerDay) by lia.
Qed.

Lemma cutoffTime_default (now : Z) (timeRange : string) :
  timeRange <> "today" -> timeRange <> "yesterday" -> timeRange <> "thisWeek" ->
  cutoffTime tz now timeRange = now - 24 * 60 * 60 * 1000.
Proof.
  intros H1 H2 H3. unfold cutoffTime.
  apply String.eqb_neq in H1, H2, H3. now rewrite H1, H2, H3.
Qed.
End CutoffFacts.

(** C6, as it holds.  For every time zone and every current time [now], with
    [local] the local wall-clock reading of [now]:
    - today: the cutoff is the instant of the local midnight that starts the
      local day of [now];
    - yesterday: the cutoff is the instant of the local midnight one calendar
      day before that of today, provided the wall-clock reading one day
      before [local] is read back on its own day (no clock change moves it
      across midnight);
    - thisWeek: the cutoff is the instant whose wall-clock reading is that of
      [now] seven calendar days earlier; it is [now - 7 * 24h] shifted by the
      difference between the zone's offsets at the two ends, so exactly
      [now - 7 * 24h] when the offsets agree, and it is not aligned to a day;
    - recent, and any other range name: exactly [now - 24h]. *)
Theorem cutoff_computation (tz : JSDate.TimeZone) (now : Z) :
  let local := JSDate.LocalTime tz now in
  let day := JSDate.msPerDay in
  (cutoffTime tz now "today" = JSDate.UTC tz (startOfDay local) /\
   isMidnight (startOfDay local) /\
   (startOfDay local <= local < startOfDay local + day)%Z) /\
  (cutoffTime tz now "yesterday" =
     JSDate.UTC tz (startOfDay (JSDate.LocalTime tz (JSDate.UTC tz (local - day)%Z))) /\
   (JSDate.Day (JSDate.LocalTime tz (JSDate.UTC tz (local - day)%Z))
      = JSDate.Day (local - day)%Z ->
    cutoffTime tz now "yesterday" = JSDate.UTC tz (startOfDay local - day)%Z) /\
   isMidnight (startOfDay local - day)%Z) /\
  (cutoffTime tz now "thisWeek" = JSDate.UTC tz (local - 7 * day)%Z /\
   cutoffTime tz now "thisWeek" =
     (now - 7 * (24 * 60 * 60 * 1000) + (tz now true - tz (local - 7 * day) false))%Z /\
   (tz (local - 7 * day)%Z false = tz now true ->
    cutoffTime tz now "thisWeek" = (now - 7 * (24 * 60 * 60 * 1000))%Z)) /\
  (cutoffTime tz now "recent" = (now - 24 * 60 * 60 * 1000)%Z /\
   forall timeRange,
     timeRange <> "today" -> timeRange <> "yesterday" -> timeRange <> "thisWeek" ->
     cutoffTime tz now timeRange = (now - 24 * 60 * 60 * 1000)%Z).
Proof.
  intros local day. subst local day.
  split; [|split; [|split]].
  - split; [apply cutoffTime_today|].
    split; [apply JSDateFacts.startOfDay_isMidnight|].
    apply JSDateFacts.startOfDay_same_day.
  - split; [apply cutoffTime_yesterday|]. split.
    + intros Hday. rewrite cutoffTime_yesterday. f_equal.
      unfold startOfDay at 1. rewrite Hday.
      apply JSDateFacts.startOfDay_pred.
    + rewrite <- JSDateFacts.startOfDay_pred.
      apply JSDateFacts.startOfDay_isMidnight.
  - split; [apply cutoffTime_thisWeek|]. split.
    + rewrite cutoffTime_thisWeek.
      unfold JSDate.UTC, JSDate.LocalTime, JSDate.msPerDay. lia.
    + intros Hoff. rewrite cutoffTime_thisWeek.
      unfold JSDate.UTC. rewrite Hoff.
      unfold JSDate.LocalTime, JSDate.msPerDay. lia.
  - split; [reflexivity|].
    intros timeRange. apply cutoffTime_default.
Qed.

(** C6, as stated, fails for thisWeek: in Central European time on 2 April
    2024 at 12:00 UTC, two days after the clocks went forward, the cutoff is
    26 March 13:00 UTC, one hour later than [now - 7 * 24h]. *)
Lemma thisWeek_across_clock_change :
  cutoffTime Sample.berlin Sample.noon2April "thisWeek" = 1711458000000%Z /\
  (Sample.noon2April - 7 * (24 * 60 * 60 * 1000))%Z = 1711454400000%Z.
Proof. split; vm_compute; reflexivity. Qed.

(** In a zone with a fixed offset the cutoffs are those of the
    specification, to the millisecond. *)
Lemma cutoff_fixed_zone (offset now : Z) :
  let tz := JSDate.fixedZone offset in
  cutoffTime tz now "today" = (startOfDay (now + offset) - offset)%Z /\
  cutoffTime tz now "yesterday" = (startOfDay (now + offset) - JSDate.msPerDay - offset)%Z /\
  cutoffTime tz now "thisWeek" = (now - 7 * (24 * 60 * 60 * 1000))%Z /\
  cutoffTime tz now "recent" = (now - 24 * 60 * 60 * 1000)%Z.
Proof.
  intros tz. subst tz. split; [|split; [|split]].
  - rewrite cutoffTime_today. reflexivity.
  - rewrite cutoffTime_yesterday.
    rewrite (proj1 (JSDateFacts.fixedZone_roundtrip offset _)).
    unfold startOfDay at 1. rewrite JSDateFacts.startOfDay_pred. reflexivity.
  - rewrite cutoffTime_thisWeek.
    unfold JSDate.UTC, JSDate.LocalTime, JSDate.fixedZone, JSDate.msPerDay. lia.
  - reflexivity.
Qed.

(** The cutoffs of a summer afternoon in Central European time: the day
    before holds no clock change, the week before does. *)
Example cutoff_berlin :
  cutoffTime Sample.berlin Sample.noon2April "today" = 1712008800000%Z /\
  cutoffTime Sample.berlin Sample.noon2April "yesterday" = 1711922400000%Z /\
  cutoffTime Sample.berlin Sample.noon2April "recent" = 1711972800000%Z /\
  JSDate.Day (JSDate.LocalTime Sample.berlin
     (JSDate.UTC Sample.berlin
        (JSDate.LocalTime Sample.berlin Sample.noon2April - JSDate.msPerDay)%Z))
  = JSDate.Day (JSDate.LocalTime Sample.berlin Sample.noon2April - JSDate.msPerDay)%Z.
Proof. repeat split; vm_compute; reflexivity. Qed.

(** ** The result formatter *)

Section FormatFacts.
Implicit Types (ps qs : list Piece) (st : FormatState) (platform : Platform).

Lemma countMessages_app ps qs :
  countMessages (ps ++ qs) = countMessages ps + countMessages qs.
Proof.
  induction ps as [|p ps IH]; [reflexivity|].
  destruct p; simpl; now rewrite ?IH.
Qed.

Lemma countMessages_messages platform (l : list Message) :
  countMessages (map (PMessage platform) l) = length l.
Proof. induction l as [|m l IH]; simpl; [reflexivity | now rewrite IH]. Qed.

Lemma headersBelowCap_app (n : nat) ps qs :
  headersBelowCap n (ps ++ qs) =
    headersBelowCap n ps && headersBelowCap (n + countMessages ps) qs.
Proof.
  revert n. induction ps as [|p ps IH]; intros n.
  - simpl. now rewrite Nat.add_0_r.
  - destruct p; simpl; rewrite IH, ?andb_assoc, <- ?Nat.add_succ_comm; reflexivity.
Qed.

Lemma headersBelowCap_messages (n : nat) platform (l : list Message) :
  headersBelowCap n (map (PMessage platform) l) = true.
Proof. revert n. induction l as [|m l IH]; intros n; simpl; auto. Qed.



Lemma insertNewestFirst_length platform (x : Message) (l : list Message) :
  length (insertNewestFirst platform x l) = S (length l).
Proof.
  induction l as [|y l IH]; simpl; [reflexivity|].
  destruct (msgTimestamp platform x <? msgTimestamp platform y)%Z; simpl; now rewrite ?IH.
Qed.

Lemma sortNewestFirst_length platform (l : list Message) :
  length (sortNewestFirst platform l) = length l.
Proof.
  induction l as [|x l IH]; simpl; [reflexivity|].
  now rewrite insertNewestFirst_length, IH.
Qed.

Lemma formatChannels_invariant platform (results : list SearchResult) st :
  formatInvariant st ->
  formatInvariant (formatChannels platform results st) /\
  totalMessagesDisplayed (formatChannels platform results st) =
    Nat.min MAX_MESSAGES_TO_DISPLAY
      (totalMessagesDisplayed st + length (flat_map messages results)).
Proof.
  revert st. induction results as [|r rs IH]; intros st (Hc & Hle & Hh & Hn).
  - cbn [formatChannels flat_map length]. split; [now repeat split|]. lia.
  - cbn [formatChannels flat_map].
    destruct (MAX_MESSAGES_TO_DISPLAY <=? totalMessagesDisplayed st)%nat eqn:E.
    + apply Nat.leb_le in E. split; [now repeat split|]. lia.
    + apply Nat.leb_gt in E. cbv zeta.
      set (shown := firstn _ _).
      assert (Hshown : length shown =
                Nat.min (MAX_MESSAGES_TO_DISPLAY - totalMessagesDisplayed st)
                  (length (messages r))).
      { unfold shown. rewrite length_firstn, sortNewestFirst_length. reflexivity. }
      match goal with |- context [formatChannels platform rs ?s] => set (st' := s) end.
      assert (Hinv : formatInvariant st').
      { unfold st', formatInvariant, emit. cbn [response totalMessagesDisplayed].
        repeat split.
        - rewrite !countMessages_app, countMessages_messages. simpl. lia.
        - lia.
        - rewrite !headersBelowCap_app, Hh, headersBelowCap_messages. simpl.
          rewrite <- Hc, ?andb_true_r. now apply Nat.ltb_lt.
        - rewrite !Forall_app. repeat split; auto.
          apply List.Forall_forall. intros p Hp. apply List.in_map_iff in Hp.
          now destruct Hp as (m & <- & _). }
      destruct (IH st' Hinv) as [Hinv' Htot]. split; [exact Hinv'|].
      rewrite Htot. unfold st', emit. cbn [totalMessagesDisplayed].
      rewrite length_app, Hshown. lia.
Qed.

End FormatFacts.

Section RenderFacts.
Variable formatTimestamp : Z -> string.


End RenderFacts.


(** The display example of the specification: thirty matching messages in
    three channels of ten (and a fourth channel behind them).  Twenty
    messages are rendered, only the first two channels are opened, and the
    note reads 20 of 30 (of 40 with the fourth channel). *)
Example display_cap_three_channels :
  let three := [(telegram, [Sample.channelResult "a" 10; Sample.channelResult "b" 10;
                            Sample.channelResult "c" 10])] in
  let four := [(telegram, [Sample.channelResult "a" 10; Sample.channelResult "b" 10;
                           Sample.channelResult "c" 10; Sample.channelResult "d" 10])] in
  countMessages (formatResponse "bug" three) = 20 /\
  List.filter isHeader (formatResponse "bug" three)
    = [PPlatformHeader telegram; PChannelHeader "a"; PChannelHeader "b"] /\
  List.last (formatResponse "bug" three) PSeparator = PNote 20 30 /\
  List.filter isHeader (formatResponse "bug" four)
    = [PPlatformHeader telegram; PChannelHeader "a"; PChannelHeader "b"] /\
  List.last (formatResponse "bug" four) PSeparator = PNote 20 40 /\
  noteText 20 30 = JSString.nl +:+
    "_Showing 20 of 30 matching messages. Refine your search to see more specific results._".
Proof. cbv zeta. repeat split; vm_compute; reflexivity. Qed.

(** ** Responses of [handleUserQuery] *)

Section HandlerFacts.
Variable tz : JSDate.TimeZone.
Variable formatTimestamp : Z -> string.

Lemma searchPlatforms_nil (user : UserConfig) (now : Z)
    (keywords channelHints : list string) (timeRange : string)
    (platforms : list Platform) (acc : list (Platform * list SearchResult)) :
  (forall platform,
     searchMessages tz user now platform keywords channelHints timeRange = []) ->
  searchPlatforms tz user now keywords channelHints timeRange platforms acc = acc.
Proof.
  intros Hnone. revert acc. induction platforms as [|p ps IH]; intros acc; simpl.
  - reflexivity.
  - rewrite Hnone. simpl. apply IH.
Qed.

(** Nothing is found in a history all of whose channels are empty. *)
Lemma searchMessages_empty_store (user : UserConfig) (now : Z) (platform : Platform)
    (keywords channelHints : list string) (timeRange : string) :
  (forall p c msgs, In (c, msgs) (historyOf (messageHistory user) p) -> msgs = []) ->
  searchMessages tz user now platform keywords channelHints timeRange = [].
Proof.
  intros Hempty. unfold searchMessages. apply searchChannels_nil.
  intros c m _ Hm. apply channelMessagesOf_In in Hm.
  destruct Hm as (msgs & Hentry & Hm).
  rewrite (Hempty platform c msgs Hentry) in Hm. destruct Hm.
Qed.
End HandlerFacts.

(** C3, as it holds.  For a known user whose store holds no message (no
    channel, or only empty ones), every query is answered by one text
    message: when at least one platform is connected, the fixed "couldn't
    find any messages" text quoting the query; when no platform is
    connected, the fixed "not connected" text, before any search is made. *)
Theorem no_match_path (tz : JSDate.TimeZone) (formatTimestamp : Z -> string)
    (users : gmap string UserConfig) (now : Z) (query uid : string)
    (user : UserConfig) :
  users !! uid = Some user ->
  (forall p c msgs, In (c, msgs) (historyOf (messageHistory user) p) -> msgs = []) ->
  handleUserQuery tz formatTimestamp users now query uid =
    if clientTelegram (platformClients user)
       || clientDiscord (platformClients user)
       || clientSlack (platformClients user)
    then [mkOutgoing "text" (noMatchText query)]
    else [mkOutgoing "text" notConnectedText].
Proof.
  intros Huser Hempty. unfold handleUserQuery. rewrite Huser.
  destruct (clientTelegram (platformClients user)
            || clientDiscord (platformClients user)
            || clientSlack (platformClients user)); [|reflexivity].
  cbn [negb]. unfold textMessage, answerPieces. do 2 f_equal.
  rewrite searchPlatforms_nil.
  - unfold formatResponse. cbn. apply JSStringFacts.append_nil_r.
  - intros platform. now apply searchMessages_empty_store.
Qed.

Lemma no_match_path_witness :
  Sample.users0 !! "alice" = Some Sample.alice /\
  (forall p c msgs,
     In (c, msgs) (historyOf (messageHistory Sample.alice) p) -> msgs = []) /\
  handleUserQuery Sample.berlin Sample.plainTimestamp Sample.users0 Sample.noon2April
    "any news from the team" "alice"
  = [mkOutgoing "text" (noMatchText "any news from the team")].
Proof.
  assert (H1 : Sample.users0 !! "alice" = Some Sample.alice) by reflexivity.
  assert (H2 : forall p c msgs,
     In (c, msgs) (historyOf (messageHistory Sample.alice) p) -> msgs = []).
  { intros [] c msgs []. }
  split; [exact H1|]. split; [exact H2|].
  exact (no_match_path Sample.berlin Sample.plainTimestamp Sample.users0
           Sample.noon2April "any news from the team" "alice" Sample.alice H1 H2).
Defined.

(** C3, as stated, fails for a requester with no connected platform: the
    store is empty and the answer is the "not connected" text, not the
    "couldn't find any messages" text. *)
Lemma empty_store_not_connected :
  Sample.users0 !! "carol" = Some Sample.carol /\
  platformClients Sample.carol = mkClients false false false /\
  messageHistory Sample.carol = mkHistory [] [] [] /\
  handleUserQuery Sample.berlin Sample.plainTimestamp Sample.users0 Sample.noon2April
    "any news from the team" "carol"
  = [mkOutgoing "text"
       "You are not connected to any messaging platforms. Use /setup to get started."] /\
  notConnectedText <> noMatchText "any news from the team".
Proof. repeat split. discriminate. Qed.

(** ** Supporting facts on the model *)

Section PatternFuel.

Lemma spanChars_length (f : ascii -> bool) (s a b : string) :
  spanChars f s = (a, b) -> String.length a + String.length b = String.length s.
Proof.
  revert a b. induction s as [|c s IH]; intros a b; simpl.
  - intros [= <- <-]. reflexivity.
  - destruct (f c).
    + destruct (spanChars f s) as [a' b'] eqn:E. intros [= <- <-].
      simpl. now rewrite (IH a' b' eq_refl).
    + intros [= <- <-]. reflexivity.
Qed.

Lemma closeQuote_length (q : ascii) (s inner rest : string) :
  closeQuote q s = Some (inner, rest) -> String.length rest < String.length s.
Proof.
  unfold closeQuote.
  destruct (spanChars (fun c => negb (Ascii.eqb c q)) s) as [a b] eqn:E.
  apply spanChars_length in E.
  destruct a as [|x a]; [discriminate|]. destruct b as [|y b]; [discriminate|].
  intros [= <- <-]. simpl in E. lia.
Qed.

(** The length of the subject is fuel enough for the two pattern scans:
    more fuel gives the same matches. *)
Lemma matchChannelPattern_fuel (fuel1 fuel2 : nat) (s : string) :
  String.length s <= fuel1 -> String.length s <= fuel2 ->
  matchChannelPattern fuel1 s = matchChannelPattern fuel2 s.
Proof.
  revert fuel2 s. induction fuel1 as [|fuel1 IH]; intros fuel2 s H1 H2.
  - destruct s; [|simpl in H1; lia]. now destruct fuel2.
  - destruct fuel2 as [|fuel2].
    + destruct s; [reflexivity | simpl in H2; lia].
    + destruct s as [|c s]; [reflexivity|]. simpl in H1, H2. simpl.
      destruct (Ascii.eqb c "#").
      * destruct (spanChars isChannelChar s) as [token rest] eqn:E.
        apply spanChars_length in E.
        destruct token; [apply IH; lia|]. f_equal. apply IH; simpl in E; lia.
      * apply IH; lia.
Qed.

Lemma matchQuotedPattern_fuel (fuel1 fuel2 : nat) (s : string) :
  String.length s <= fuel1 -> String.length s <= fuel2 ->
  matchQuotedPattern fuel1 s = matchQuotedPattern fuel2 s.
Proof.
  revert fuel2 s. induction fuel1 as [|fuel1 IH]; intros fuel2 s H1 H2.
  - destruct s; [|simpl in H1; lia]. now destruct fuel2.
  - destruct fuel2 as [|fuel2].
    + destruct s; [reflexivity | simpl in H2; lia].
    + destruct s as [|c s]; [reflexivity|]. simpl in H1, H2. simpl.
      destruct (Ascii.eqb c JSString.dquote || Ascii.eqb c JSString.squote).
      * destruct (closeQuote c s) as [[inner rest]|] eqn:E.
        -- apply closeQuote_length in E. f_equal. apply IH; lia.
        -- apply IH; lia.
      * apply IH; lia.
Qed.
End PatternFuel.

(** The hint example of the specification, and a query with both kinds of
    quotes. *)
Example channel_hints_example :
  channelMentions "Find mentions of bug in #general and 'Project Team'"
    = ["general"; "Project Team"] /\
  channelMentions ("in #dev-ops or " +:+ JSString.dq +:+ "General Chat" +:+ JSString.dq)
    = ["dev-ops"; "General Chat"].
Proof. split; reflexivity. Qed.

(** Keyword extraction on queries of the help text. *)
Example query_words_example :
  queryWords "Did anyone mention the quarterly report in Slack?"
    = ["anyone"; "mention"; "quarterly"; "report"; "slack?"] /\
  queryWords "  Show me the last 5 messages, please!  "
    = ["last"; "messages"; "please"].
Proof. split; reflexivity. Qed.

(** Calendar fields of some instants: the epoch, the millisecond before it,
    29 February 2000, 1 March 2100 and 2 April 2024 at noon. *)
Example calendar_examples :
  (JSDate.YearFromTime 0, JSDate.MonthFromTime 0, JSDate.DateFromTime 0)
    = (1970, 0, 1)%Z /\
  (JSDate.YearFromTime (-1), JSDate.MonthFromTime (-1), JSDate.DateFromTime (-1))
    = (1969, 11, 31)%Z /\
  (JSDate.YearFromTime 951782400000, JSDate.MonthFromTime 951782400000,
   JSDate.DateFromTime 951782400000) = (2000, 1, 29)%Z /\
  (JSDate.YearFromTime 4107542400000, JSDate.MonthFromTime 4107542400000,
   JSDate.DateFromTime 4107542400000) = (2100, 2, 1)%Z /\
  (JSDate.YearFromTime Sample.noon2April, JSDate.MonthFromTime Sample.noon2April,
   JSDate.DateFromTime Sample.noon2April, JSDate.HourFromTime Sample.noon2April)
    = (2024, 3, 2, 12)%Z.
Proof. repeat split; vm_compute; reflexivity. Qed.

Section SortFacts.
Variable platform : Platform.

Lemma insertNewestFirst_perm (x : Message) (l : list Message) :
  Permutation (insertNewestFirst platform x l) (x :: l).
Proof.
  induction l as [|y l IH]; simpl; [reflexivity|].
  destruct (msgTimestamp platform x <? msgTimestamp platform y)%Z; [|reflexivity].
  rewrite IH. apply perm_swap.
Qed.

(** The messages shown are those found, reordered. *)
Lemma sortNewestFirst_perm (l : list Message) :
  Permutation (sortNewestFirst platform l) l.
Proof.
  induction l as [|x l IH]; simpl; [reflexivity|].
  rewrite insertNewestFirst_perm. now constructor.
Qed.

Lemma insertNewestFirst_sorted (x : Message) (l : list Message) :
  Sorted (fun a b => (msgTimestamp platform b <= msgTimestamp platform a)%Z) l ->
  Sorted (fun a b => (msgTimestamp platform b <= msgTimestamp platform a)%Z)
    (insertNewestFirst platform x l).
Proof.
  induction l as [|y l IH]; intros Hs; simpl.
  - repeat constructor.
  - destruct (msgTimestamp platform x <? msgTimestamp platform y)%Z eqn:E.
    + apply Z.ltb_lt in E. inversion Hs as [|? ? Hs' Hhd]; subst.
      constructor; [now apply IH|].
      destruct l as [|z l]; simpl.
      * constructor. lia.
      * destruct (msgTimestamp platform x <? msgTimestamp platform z)%Z;
          constructor; [now inversion Hhd | lia].
    + apply Z.ltb_ge in E. constructor; [exact Hs | now constructor].
Qed.

(** Newest first. *)
Lemma sortNewestFirst_sorted (l : list Message) :
  Sorted (fun a b => (msgTimestamp platform b <= msgTimestamp platform a)%Z)
    (sortNewestFirst platform l).
Proof.
  induction l as [|x l IH]; simpl; [constructor|].
  now apply insertNewestFirst_sorted.
Qed.
End SortFacts.

(** The answer to a known user with a connected platform is the rendering
    of the formatted results of the search over the detected platforms. *)
Lemma handleUserQuery_connected (tz : JSDate.TimeZone) (formatTimestamp : Z -> string)
    (users : gmap string UserConfig) (now : Z) (query uid : string)
    (user : UserConfig) :
  users !! uid = Some user ->
  clientTelegram (platformClients user)
    || clientDiscord (platformClients user)
    || clientSlack (platformClients user) = true ->
  handleUserQuery tz formatTimestamp users now query uid =
    [mkOutgoing "text"
       (renderResponse formatTimestamp
          (formatResponse query
             (searchPlatforms tz user now (queryWords query) (channelMentions query)
                (detectTimeRange query) (detectPlatforms query user) [])))].
Proof.
  intros Huser Hconn. unfold handleUserQuery. now rewrite Huser, Hconn.
Qed.

(** A delivery never changes which platforms a user is connected to. *)
Lemma storeMessage_keeps_clients (users : gmap string UserConfig)
    (u : string) (p : Platform) (c : string) (m : Message) (u' : string) :
  platformClients <$> (storeMessage users u p c m !! u') = platformClients <$> (users !! u').
Proof.
  unfold storeMessage. destruct (users !! u) as [cfg|] eqn:Hcfg; [|reflexivity].
  destruct (JSMap.get c _);
    (destruct (decide (u = u')) as [<-|Hne];
     [rewrite lookup_insert_eq, Hcfg; reflexivity | now rewrite lookup_insert_ne]).
Qed.

(* ===================================================================== *)
(** * Part III: further properties of the code                            *)
(* ===================================================================== *)

(** ** More on insertion-ordered maps *)

Section JSMapMore.
Context {K V : Type} `{EqDecision K}.
Implicit Types (m : list (K * V)) (k : K) (v : V).

Lemma jsmap_set_set m k v0 v : JSMap.set k v (JSMap.set k v0 m) = JSMap.set k v m.
Proof.
  induction m as [|[k' v'] m IH]; simpl.
  - now rewrite decide_True.
  - destruct (decide (k = k')) as [->|Hne]; simpl.
    + now rewrite decide_True.
    + now rewrite decide_False, IH.
Qed.

Lemma jsmap_set_In m k v (e : K * V) :
  In e (JSMap.set k v m) -> e = (k, v) \/ In e m.
Proof.
  induction m as [|[k' v'] m IH]; simpl.
  - intros [<-|[]]. now left.
  - destruct (decide (k = k')) as [->|Hne]; simpl.
    + intros [<-|Hin]; auto.
    + intros [<-|Hin]; auto. destruct (IH Hin); auto.
Qed.

Lemma jsmap_keys_set m k v :
  JSMap.keys (JSMap.set k v m) =
    if JSMap.has k m then JSMap.keys m else JSMap.keys m ++ [k].
Proof.
  unfold JSMap.has. induction m as [|[k' v'] m IH]; simpl; [reflexivity|].
  destruct (decide (k = k')) as [->|Hne]; simpl; [reflexivity|].
  rewrite IH. now destruct (JSMap.get k m).
Qed.

Lemma jsmap_keys_set_nodup m k v :
  NoDup (JSMap.keys m) -> NoDup (JSMap.keys (JSMap.set k v m)).
Proof.
  intros Hnd. rewrite jsmap_keys_set. unfold JSMap.has.
  destruct (JSMap.get k m) eqn:E; [exact Hnd|].
  apply JSMapFacts.get_None in E.
  apply NoDup_ListNoDup. apply NoDup_ListNoDup in Hnd.
  apply List.NoDup_app; repeat split; auto.
  - repeat constructor. intros [].
  - intros x Hx [<-|[]]. contradiction.
Qed.

Lemma jsmap_In_get m k v :
  NoDup (JSMap.keys m) -> In (k, v) m -> JSMap.get k m = Some v.
Proof.
  induction m as [|[k' v'] m IH]; simpl; [intros _ []|].
  intros Hnd [[= -> ->]|Hin].
  - now rewrite decide_True.
  - apply NoDup_cons in Hnd. destruct Hnd as [Hk' Hnd].
    destruct (decide (k = k')) as [->|Hne].
    + exfalso. apply Hk'. apply list_elem_of_In.
      change k' with (fst (k', v)). now apply in_map.
    + now apply IH.
Qed.
End JSMapMore.

(** ** More on the message history store *)

Section StoreMore.
Implicit Types (users : gmap string UserConfig) (u : string) (p : Platform)
  (c : string) (m : Message).

(** The user object after a delivery to a known user: the addressed map
    has the channel set to its bounded push, the rest is as before. *)
Lemma storeMessage_known users u p c m (user : UserConfig) :
  users !! u = Some user ->
  storeMessage users u p c m =
    <[u := setHistory user p
             (JSMap.set c
                (let pushed := channelMessagesOf (historyOf (messageHistory user) p) c ++ [m] in
                 if (MAX_HISTORY_PER_CHANNEL <? length pushed)%nat
                 then shift pushed else pushed)
                (historyOf (messageHistory user) p))]> users.
Proof.
  intros Hu. unfold storeMessage, channelMessagesOf. rewrite Hu.
  unfold JSMap.has.
  destruct (JSMap.get c (historyOf (messageHistory user) p)) as [old|] eqn:E.
  - now rewrite E.
  - rewrite JSMapFacts.get_set_eq. now rewrite jsmap_set_set.
Qed.

Lemma bounded_push_length (l : list Message) m :
  length l <= MAX_HISTORY_PER_CHANNEL ->
  1 <= length (let pushed := l ++ [m] in
               if (MAX_HISTORY_PER_CHANNEL <? length pushed)%nat
               then shift pushed else pushed)
    <= MAX_HISTORY_PER_CHANNEL.
Proof.
  intros Hle. rewrite bounded_push_lastN by exact Hle.
  rewrite lastN_length, length_app. simpl. unfold MAX_HISTORY_PER_CHANNEL. lia.
Qed.

Lemma storeMessage_withinCapacity users u p c m :
  withinCapacity users -> withinCapacity (storeMessage users u p c m).
Proof.
  intros Hcap. destruct (users !! u) as [user|] eqn:Hu.
  - rewrite (storeMessage_known users u p c m user Hu).
    intros u' user' p' c' msgs Hu' Hin.
    destruct (decide (u' = u)) as [->|Hne].
    + rewrite lookup_insert_eq in Hu'. injection Hu' as <-.
      destruct (decide (p' = p)) as [->|Hp].
      * rewrite historyOf_setHistory_eq in Hin.
        apply jsmap_set_In in Hin. destruct Hin as [[= -> ->]|Hin].
        -- apply bounded_push_length. unfold channelMessagesOf.
           destruct (JSMap.get c _) as [old|] eqn:E; [|simpl; lia].
           apply JSMapFacts.get_In in E. apply (Hcap u user p c old Hu E).
        -- apply (Hcap u user p c' msgs Hu Hin).
      * rewrite historyOf_setHistory_ne in Hin by congruence.
        apply (Hcap u user p' c' msgs Hu Hin).
    + rewrite lookup_insert_ne in Hu' by congruence.
      apply (Hcap u' user' p' c' msgs Hu' Hin).
  - unfold storeMessage. now rewrite Hu.
Qed.
End StoreMore.

Lemma deliverAll_withinCapacity (users : gmap string UserConfig) (ds : list Delivery) :
  withinCapacity users -> withinCapacity (deliverAll users ds).
Proof.
  revert users. induction ds as [|d ds IH]; intros users Hcap; [exact Hcap|].
  apply IH. now apply storeMessage_withinCapacity.
Qed.

Lemma sample_withinCapacity : withinCapacity Sample.users0.
Proof.
  intros u user p c msgs Hu Hin.
  destruct (decide (u = "alice")) as [->|Ha].
  - injection Hu as <-. now destruct p.
  - destruct (decide (u = "carol")) as [->|Hc].
    + injection Hu as <-. now destruct p.
    + unfold Sample.users0 in Hu.
      rewrite !lookup_insert_ne, lookup_empty in Hu by congruence. discriminate.
Qed.

(** X1. Capacity invariant of the store.  If every tracked channel of every
    user holds between 1 and 500 messages, then so it is after any run of
    [storeMessage] calls: no channel ever exceeds the limit, and a channel
    that is tracked is never empty. *)
Theorem store_capacity_invariant (users : gmap string UserConfig) (ds : list Delivery) :
  withinCapacity users ->
  forall u user p c msgs,
    deliverAll users ds !! u = Some user ->
    In (c, msgs) (historyOf (messageHistory user) p) ->
    1 <= length msgs <= 500.
Proof.
  intros Hcap. change 500 with MAX_HISTORY_PER_CHANNEL.
  change (withinCapacity (deliverAll users ds)).
  now apply deliverAll_withinCapacity.
Qed.

Lemma store_capacity_invariant_witness :
  withinCapacity Sample.users0 /\
  (forall u user p c msgs,
     deliverAll Sample.users0 Sample.deliveries3 !! u = Some user ->
     In (c, msgs) (historyOf (messageHistory user) p) ->
     1 <= length msgs <= 500).
Proof.
  split; [exact sample_withinCapacity|].
  exact (store_capacity_invariant Sample.users0 Sample.deliveries3 sample_withinCapacity).
Defined.

(** X2. Frame of a delivery.  A [storeMessage] call changes at most the
    messages of the channel it addresses: the messages of every other
    channel, platform or user are as before, no user is added or removed,
    and nobody's connections change. *)
Theorem store_frame (users : gmap string UserConfig) (u : string) (p : Platform)
    (c : string) (m : Message) (u' : string) (p' : Platform) (c' : string) :
  ~ (u' = u /\ p' = p /\ c' = c) ->
  storedMessages (storeMessage users u p c m) u' p' c' = storedMessages users u' p' c' /\
  (forall v, is_Some (storeMessage users u p c m !! v) <-> is_Some (users !! v)) /\
  (forall v, platformClients <$> (storeMessage users u p c m !! v)
             = platformClients <$> (users !! v)).
Proof.
  intros Hne. split; [now apply storedMessages_store_other|]. split.
  - intros v. pose proof (storeMessage_keeps_clients users u p c m v) as Hc.
    destruct (storeMessage users u p c m !! v), (users !! v); simpl in Hc;
      try discriminate; split; intros [x Hx]; try discriminate; eauto.
  - intros v. apply storeMessage_keeps_clients.
Qed.

Lemma store_frame_witness :
  ~ ("alice" = "alice" /\ discord = telegram /\ "general" = "general") /\
  storedMessages
    (storeMessage (deliverAll Sample.users0 Sample.deliveries3)
       "alice" telegram "general" (Sample.numbered 9))
    "alice" discord "general"
  = storedMessages (deliverAll Sample.users0 Sample.deliveries3) "alice" discord "general".
Proof.
  assert (H : ~ ("alice" = "alice" /\ discord = telegram /\ "general" = "general")).
  { intros (_ & Hd & _). discriminate. }
  split; [exact H|].
  exact (proj1 (store_frame (deliverAll Sample.users0 Sample.deliveries3)
                  "alice" telegram "general" (Sample.numbered 9)
                  "alice" discord "general" H)).
Defined.

(** X3. Channel order.  A delivery to a known user keeps the order in
    which the channels of the platform were first seen: a channel already
    tracked keeps its place, a new channel goes last; and the maps of the
    other platforms are untouched.  (The search and the formatter walk the
    channels in this order.) *)
Theorem store_channel_order (users : gmap string UserConfig) (u : string)
    (p : Platform) (c : string) (m : Message) (user : UserConfig) :
  users !! u = Some user ->
  exists user',
    storeMessage users u p c m !! u = Some user' /\
    JSMap.keys (historyOf (messageHistory user') p) =
      (if JSMap.has c (historyOf (messageHistory user) p)
       then JSMap.keys (historyOf (messageHistory user) p)
       else JSMap.keys (historyOf (messageHistory user) p) ++ [c]) /\
    (forall p', p' <> p ->
       historyOf (messageHistory user') p' = historyOf (messageHistory user) p').
Proof.
  intros Hu. rewrite (storeMessage_known users u p c m user Hu).
  eexists. split; [apply lookup_insert_eq|]. split.
  - rewrite historyOf_setHistory_eq. apply jsmap_keys_set.
  - intros p' Hp. apply historyOf_setHistory_ne. congruence.
Qed.

Lemma store_channel_order_witness :
  Sample.users0 !! "alice" = Some Sample.alice /\
  exists user',
    storeMessage Sample.users0 "alice" telegram "general" (Sample.numbered 1) !! "alice"
      = Some user' /\
    JSMap.keys (historyOf (messageHistory user') telegram) = ["general"].
Proof.
  split; [reflexivity|].
  destruct (store_channel_order Sample.users0 "alice" telegram "general"
              (Sample.numbered 1) Sample.alice eq_refl) as (user' & H1 & H2 & _).
  exists user'. split; [exact H1 | exact H2].
Defined.

(** X4. Sliding window from any state.  For a known user and a channel
    that holds at most 500 messages, after any run of [storeMessage] calls
    the channel holds the last 500 of what it held followed by what was
    addressed to it, in order, however often the same message object is
    delivered: nothing is ever left out for being a duplicate. *)
Theorem retention_from_any_state (users : gmap string UserConfig)
    (ds : list Delivery) (u : string) (p : Platform) (c : string) :
  is_Some (users !! u) ->
  length (storedMessages users u p c) <= 500 ->
  storedMessages (deliverAll users ds) u p c =
    lastN 500 (storedMessages users u p c ++ messagesFor u p c ds).
Proof. apply storedMessages_deliverAll. Qed.

Lemma retention_from_any_state_witness :
  is_Some (deliverAll Sample.users0 Sample.deliveries3 !! "alice") /\
  length (storedMessages (deliverAll Sample.users0 Sample.deliveries3)
            "alice" telegram "general") <= 500 /\
  map msgId
    (storedMessages
       (deliverAll (deliverAll Sample.users0 Sample.deliveries3)
          [Sample.toGeneral 3; Sample.toGeneral 3])
       "alice" telegram "general")
  = ["1"; "2"; "3"; "3"; "3"].
Proof.
  assert (H1 : is_Some (deliverAll Sample.users0 Sample.deliveries3 !! "alice"))
    by (eexists; reflexivity).
  assert (H2 : length (storedMessages (deliverAll Sample.users0 Sample.deliveries3)
            "alice" telegram "general") <= 500) by (vm_compute; lia).
  split; [exact H1|]. split; [exact H2|].
  rewrite (retention_from_any_state (deliverAll Sample.users0 Sample.deliveries3)
             [Sample.toGeneral 3; Sample.toGeneral 3] "alice" telegram "general" H1 H2).
  reflexivity.
Defined.

(** ** The status report *)

Section StatusFacts.
Implicit Types (h : list (string * list Message)).

Lemma platformMessageCount_fold h (start : nat) :
  fold_left (fun count entry => count + length (snd entry)) h start
  = start + platformMessageCount h.
Proof.
  unfold platformMessageCount. revert start.
  induction h as [|e h IH]; intros start; simpl; [lia|].
  rewrite IH, (IH (length (snd e))). lia.
Qed.

Lemma platformMessageCount_cons (e : string * list Message) h :
  platformMessageCount (e :: h) = length (snd e) + platformMessageCount h.
Proof. unfold platformMessageCount at 1. simpl. apply platformMessageCount_fold. Qed.

Lemma platformMessageCount_set h (c : string) (msgs : list Message) :
  uniqueKeys h ->
  platformMessageCount (JSMap.set c msgs h) + length (channelMessagesOf h c)
  = platformMessageCount h + length msgs.
Proof.
  unfold uniqueKeys, channelMessagesOf. induction h as [|[k v] h IH]; intros Hnd.
  - unfold platformMessageCount. simpl. lia.
  - simpl in Hnd. apply NoDup_cons in Hnd. destruct Hnd as [Hk Hnd]. simpl.
    destruct (decide (c = k)) as [->|Hne].
    + rewrite !platformMessageCount_cons. simpl. lia.
    + rewrite !platformMessageCount_cons. simpl. specialize (IH Hnd). lia.
Qed.

Lemma platformMessageCount_sum h :
  uniqueKeys h ->
  platformMessageCount h =
    list_sum (map (fun c => length (channelMessagesOf h c)) (JSMap.keys h)).
Proof.
  unfold uniqueKeys, channelMessagesOf. induction h as [|[k v] h IH]; intros Hnd.
  - reflexivity.
  - simpl in Hnd. apply NoDup_cons in Hnd. destruct Hnd as [Hk Hnd].
    rewrite platformMessageCount_cons. simpl. rewrite decide_True by reflexivity.
    f_equal. rewrite (IH Hnd). f_equal. apply map_ext_in. intros c Hc.
    destruct (decide (c = k)) as [->|Hne]; [|reflexivity].
    exfalso. apply Hk. now apply list_elem_of_In.
Qed.

Lemma platformMessageCount_bounds h (lo hi : nat) :
  (forall c msgs, In (c, msgs) h -> lo <= length msgs <= hi) ->
  lo * length h <= platformMessageCount h <= hi * length h.
Proof.
  induction h as [|[k v] h IH]; intros Hall.
  - unfold platformMessageCount. simpl. lia.
  - rewrite platformMessageCount_cons. simpl.
    assert (Hv : lo <= length v <= hi) by (apply (Hall k v); now left).
    assert (Hrest : lo * length h <= platformMessageCount h <= hi * length h).
    { apply IH. intros c msgs Hin. apply (Hall c msgs). now right. }
    lia.
Qed.
End StatusFacts.

(** X5. The status count follows the store.  For a known user, a delivery
    raises the number of messages that [/status] counts for the platform by
    one when the addressed channel holds fewer than 500 messages, and leaves
    it as it is when the channel is full; the counts of the other two
    platforms do not change. *)
Theorem status_count_after_delivery (users : gmap string UserConfig) (u : string)
    (p : Platform) (c : string) (m : Message) (user : UserConfig) :
  users !! u = Some user ->
  uniqueKeys (historyOf (messageHistory user) p) ->
  exists user',
    storeMessage users u p c m !! u = Some user' /\
    platformMessageCount (historyOf (messageHistory user') p) =
      platformMessageCount (historyOf (messageHistory user) p)
      + (if (length (storedMessages users u p c) <? 500)%nat then 1 else 0) /\
    (forall p', p' <> p ->
       platformMessageCount (historyOf (messageHistory user') p') =
       platformMessageCount (historyOf (messageHistory user) p')).
Proof.
  intros Hu Hnd. rewrite (storeMessage_known users u p c m user Hu).
  eexists. split; [apply lookup_insert_eq|]. split.
  - rewrite historyOf_setHistory_eq.
    assert (Hstored : storedMessages users u p c
                      = channelMessagesOf (historyOf (messageHistory user) p) c).
    { unfold storedMessages, channelMessagesOf. now rewrite Hu. }
    rewrite Hstored.
    set (old := channelMessagesOf (historyOf (messageHistory user) p) c).
    cbv zeta. rewrite length_app. simpl length.
    change MAX_HISTORY_PER_CHANNEL with 500.
    destruct (500 <? length old + 1)%nat eqn:E'.
    + apply Nat.ltb_lt in E'.
      pose proof (platformMessageCount_set _ c (shift (old ++ [m])) Hnd) as Hset.
      fold old in Hset.
      assert (Hshift : length (shift (old ++ [m])) = length old).
      { unfold shift. destruct old; simpl in *; [lia|].
        rewrite length_app. simpl. lia. }
      rewrite Hshift in Hset.
      destruct (length old <? 500)%nat eqn:E; [apply Nat.ltb_lt in E; lia | lia].
    + apply Nat.ltb_ge in E'.
      pose proof (platformMessageCount_set _ c (old ++ [m]) Hnd) as Hset.
      fold old in Hset. rewrite length_app in Hset. simpl in Hset.
      destruct (length old <? 500)%nat eqn:E; [lia | apply Nat.ltb_ge in E; lia].
  - intros p' Hp. now rewrite historyOf_setHistory_ne by congruence.
Qed.

Lemma status_count_after_delivery_witness :
  Sample.users0 !! "alice" = Some Sample.alice /\
  uniqueKeys (historyOf (messageHistory Sample.alice) telegram) /\
  exists user',
    storeMessage Sample.users0 "alice" telegram "general" (Sample.numbered 1) !! "alice"
      = Some user' /\
    platformMessageCount (historyOf (messageHistory user') telegram) = 1.
Proof.
  assert (H : uniqueKeys (historyOf (messageHistory Sample.alice) telegram))
    by constructor.
  split; [reflexivity|]. split; [exact H|].
  destruct (status_count_after_delivery Sample.users0 "alice" telegram "general"
              (Sample.numbered 1) Sample.alice eq_refl H) as (user' & H1 & H2 & _).
  exists user'. split; [exact H1 | exact H2].
Defined.

(** X6. What the status count counts.  For a user of a store within
    capacity, the number of messages that [/status] counts for a platform is
    the sum, over the tracked channels, of the number of messages the search
    reads from each; it is at least the number of tracked channels and at
    most 500 times that number. *)
Theorem status_count_meaning (users : gmap string UserConfig) (u : string)
    (user : UserConfig) (p : Platform) :
  users !! u = Some user ->
  uniqueKeys (historyOf (messageHistory user) p) ->
  withinCapacity users ->
  let channels := JSMap.keys (historyOf (messageHistory user) p) in
  platformMessageCount (historyOf (messageHistory user) p) =
    list_sum (map (fun c => length (storedMessages users u p c)) channels) /\
  length channels <= platformMessageCount (historyOf (messageHistory user) p)
    <= 500 * length channels.
Proof.
  intros Hu Hnd Hcap channels. subst channels. split.
  - rewrite (platformMessageCount_sum _ Hnd). f_equal. apply map_ext. intros c.
    unfold storedMessages, channelMessagesOf. now rewrite Hu.
  - unfold JSMap.keys. rewrite length_map.
    pose proof (platformMessageCount_bounds (historyOf (messageHistory user) p) 1 500) as Hb.
    rewrite Nat.mul_1_l in Hb. apply Hb.
    intros c msgs Hin. apply (Hcap u user p c msgs Hu Hin).
Qed.

Lemma status_count_meaning_witness :
  deliverAll Sample.users0 Sample.deliveries3 !! "alice"
    = Some (mkUser "alice" (mkClients true true false)
              (mkHistory
                 [("general", [Sample.numbered 1; Sample.numbered 2; Sample.numbered 3])]
                 [("dev", [Sample.discordMessage "x" "build is green" "dev" "Bo" 5])]
                 [])) /\
  uniqueKeys [("general", [Sample.numbered 1; Sample.numbered 2; Sample.numbered 3])] /\
  withinCapacity (deliverAll Sample.users0 Sample.deliveries3) /\
  platformMessageCount
    [("general", [Sample.numbered 1; Sample.numbered 2; Sample.numbered 3])] = 3.
Proof.
  assert (H1 : deliverAll Sample.users0 Sample.deliveries3 !! "alice"
    = Some (mkUser "alice" (mkClients true true false)
              (mkHistory
                 [("general", [Sample.numbered 1; Sample.numbered 2; Sample.numbered 3])]
                 [("dev", [Sample.discordMessage "x" "build is green" "dev" "Bo" 5])]
                 []))) by reflexivity.
  assert (H2 : uniqueKeys
    [("general", [Sample.numbered 1; Sample.numbered 2; Sample.numbered 3])]).
  { unfold uniqueKeys. simpl. apply NoDup_singleton. }
  assert (H3 : withinCapacity (deliverAll Sample.users0 Sample.deliveries3))
    by (apply deliverAll_withinCapacity, sample_withinCapacity).
  split; [exact H1|]. split; [exact H2|]. split; [exact H3|].
  exact (proj1 (status_count_meaning _ "alice" _ telegram H1 H2 H3)).
Defined.

(** ** Disconnecting *)

Section DisconnectFacts.
Variable completes : Platform -> bool.

(** A call of the inner [disconnectPlatform] that does not throw leaves the
    platform disconnected and touches nothing else. *)
Lemma disconnectPlatform_returns (user : UserConfig) (name : Platform) :
  (connected user name = true -> completes name = true) ->
  exists user' message,
    disconnectPlatform completes user name = (user', Returned message) /\
    messageHistory user' = messageHistory user /\
    userId user' = userId user /\
    connected user' name = false /\
    (forall p, p <> name -> connected user' p = connected user p).
Proof.
  intros Hok. unfold disconnectPlatform. destruct name; simpl in Hok |- *.
  - destruct (clientTelegram (platformClients user)) eqn:E.
    + rewrite (Hok eq_refl). do 2 eexists. split; [reflexivity|].
      repeat split. intros []; simpl; congruence.
    + do 2 eexists. split; [reflexivity|]. repeat split. exact E.
  - destruct (clientDiscord (platformClients user)) eqn:E.
    + rewrite (Hok eq_refl). do 2 eexists. split; [reflexivity|].
      repeat split. intros []; simpl; congruence.
    + do 2 eexists. split; [reflexivity|]. repeat split. exact E.
  - destruct (clientSlack (platformClients user)) eqn:E.
    + rewrite (Hok eq_refl). do 2 eexists. split; [reflexivity|].
      repeat split. intros []; simpl; congruence.
    + do 2 eexists. split; [reflexivity|]. repeat split. exact E.
Qed.

(** A call that throws has changed nothing. *)
Lemma disconnectPlatform_throws (user : UserConfig) (name : Platform) :
  connected user name = true -> completes name = false ->
  disconnectPlatform completes user name = (user, Threw).
Proof.
  intros Hc Hf. unfold disconnectPlatform.
  destruct name; simpl in Hc; now rewrite Hc, Hf.
Qed.

Lemma platformOfName_platformName (name : Platform) :
  platformOfName (platformName name) = Some name /\
  existsb (String.eqb (platformName name)) ["telegram"; "discord"; "slack"; "all"] = true /\
  String.eqb (platformName name) "all" = false /\
  platformName name <> EmptyString.
Proof. destruct name; repeat split; discriminate. Qed.
End DisconnectFacts.

(** X7. Disconnecting one platform.  For a known user whose command names
    telegram, discord or slack in any letter case, when the client's
    disconnect call completes (or the platform is not connected at all) the
    handler returns a text that ends with the notice that the history was
    cleared, the platform is left disconnected with an empty history, whether
    or not it was connected, and the histories and connections of the other
    platforms and all other users are as before. *)
Theorem disconnect_clears_platform (completes : Platform -> bool)
    (users : gmap string UserConfig) (text uid : string) (user : UserConfig)
    (name : Platform) :
  commandPlatform text = Some (platformName name) ->
  users !! uid = Some user ->
  (connected user name = true -> completes name = true) ->
  exists user' message,
    handleDisconnectCommand completes users text uid =
      (<[uid := user']> users,
       Returned [mkOutgoing "text"
                   (message +:+ JSString.nl +:+ JSString.nl
                    +:+ "Message history for this platform has been cleared.")]) /\
    historyOf (messageHistory user') name = [] /\
    connected user' name = false /\
    (forall p, p <> name ->
       historyOf (messageHistory user') p = historyOf (messageHistory user) p /\
       connected user' p = connected user p).
Proof.
  intros Hcmd Huser Hok. unfold handleDisconnectCommand. rewrite Hcmd.
  destruct (platformOfName_platformName name) as (Hname & Hvalid & Hall & Hne).
  destruct (platformName name) as [|ch rest] eqn:En; [congruence|].
  rewrite Hvalid. cbn [negb]. rewrite Huser, Hall, Hname.
  destruct (disconnectPlatform_returns completes user name Hok)
    as (user1 & message & Hd & Hh & _ & Hc & Hothers).
  rewrite Hd. exists (setHistory user1 name []), message.
  split; [reflexivity|]. split; [apply historyOf_setHistory_eq|]. split.
  - destruct name; exact Hc.
  - intros p Hp. split.
    + rewrite historyOf_setHistory_ne by congruence. now rewrite Hh.
    + rewrite <- (Hothers p Hp). now destruct p.
Qed.

Lemma disconnect_clears_platform_witness :
  commandPlatform "/disconnect Telegram" = Some (platformName telegram) /\
  deliverAll Sample.users0 Sample.deliveries3 !! "alice"
    = Some (mkUser "alice" (mkClients true true false)
              (mkHistory
                 [("general", [Sample.numbered 1; Sample.numbered 2; Sample.numbered 3])]
                 [("dev", [Sample.discordMessage "x" "build is green" "dev" "Bo" 5])]
                 [])) /\
  exists user' message,
    handleDisconnectCommand (fun _ => true)
      (deliverAll Sample.users0 Sample.deliveries3) "/disconnect Telegram" "alice"
    = (<["alice" := user']> (deliverAll Sample.users0 Sample.deliveries3),
       Returned [mkOutgoing "text"
                   (message +:+ JSString.nl +:+ JSString.nl
                    +:+ "Message history for this platform has been cleared.")]) /\
    historyOf (messageHistory user') telegram = [].
Proof.
  split; [reflexivity|]. split; [reflexivity|].
  destruct (disconnect_clears_platform (fun _ => true)
              (deliverAll Sample.users0 Sample.deliveries3) "/disconnect Telegram" "alice"
              _ telegram eq_refl eq_refl (fun _ => eq_refl))
    as (user' & message & H1 & H2 & _).
  exists user', message. split; [exact H1 | exact H2].
Defined.

(** X8. Disconnecting everything, then asking.  For a known user whose
    command names [all] in any letter case, when the disconnect calls of
    the connected clients complete, the handler leaves the user with no
    connection and no stored message on any platform, leaves all other
    users as they were, and every later query of that user is answered with
    the "not connected" text. *)
Theorem disconnect_all_then_query (completes : Platform -> bool)
    (users : gmap string UserConfig) (text uid : string) (user : UserConfig) :
  commandPlatform text = Some "all" ->
  users !! uid = Some user ->
  (forall p, connected user p = true -> completes p = true) ->
  exists user' summary,
    handleDisconnectCommand completes users text uid =
      (<[uid := user']> users,
       Returned [mkOutgoing "text"
                   (summary +:+ JSString.nl +:+ JSString.nl
                    +:+ "All message history has been cleared.")]) /\
    messageHistory user' = mkHistory [] [] [] /\
    (forall p, connected user' p = false) /\
    (forall p c, storedMessages (<[uid := user']> users) uid p c = []) /\
    (forall tz formatTimestamp now query,
       handleUserQuery tz formatTimestamp (<[uid := user']> users) now query uid
       = [mkOutgoing "text" notConnectedText]).
Proof.
  intros Hcmd Huser Hok. unfold handleDisconnectCommand. rewrite Hcmd.
  cbn [existsb String.eqb Ascii.eqb Bool.eqb orb negb].
  rewrite Huser.
  destruct (disconnectPlatform_returns completes user telegram (Hok telegram))
    as (user1 & m1 & Hd1 & Hh1 & _ & Hc1 & Ho1).
  assert (Hok2 : connected user1 discord = true -> completes discord = true).
  { rewrite (Ho1 discord) by discriminate. apply Hok. }
  destruct (disconnectPlatform_returns completes user1 discord Hok2)
    as (user2 & m2 & Hd2 & Hh2 & _ & Hc2 & Ho2).
  assert (Hok3 : connected user2 slack = true -> completes slack = true).
  { rewrite (Ho2 slack), (Ho1 slack) by discriminate. apply Hok. }
  destruct (disconnectPlatform_returns completes user2 slack Hok3)
    as (user3 & m3 & Hd3 & Hh3 & _ & Hc3 & Ho3).
  rewrite Hd1, Hd2, Hd3. cbv zeta.
  assert (Hnone : forall p, connected user3 p = false).
  { intros [].
    - now rewrite (Ho3 telegram), (Ho2 telegram) by discriminate.
    - now rewrite (Ho3 discord) by discriminate.
    - exact Hc3. }
  do 2 eexists. split; [reflexivity|]. split; [reflexivity|]. split; [|split].
  - intros p. rewrite <- (Hnone p). now destruct p.
  - intros p c. unfold storedMessages. rewrite lookup_insert_eq. now destruct p.
  - intros tz formatTimestamp now query. unfold handleUserQuery.
    rewrite lookup_insert_eq. cbn [platformClients].
    pose proof (Hnone telegram) as Ht. pose proof (Hnone discord) as Hd.
    pose proof (Hnone slack) as Hs. simpl in Ht, Hd, Hs. now rewrite Ht, Hd, Hs.
Qed.

Lemma disconnect_all_then_query_witness :
  commandPlatform "/disconnect ALL" = Some "all" /\
  Sample.users0 !! "alice" = Some Sample.alice /\
  (forall p, connected Sample.alice p = true -> (fun _ : Platform => true) p = true) /\
  exists user' summary,
    handleDisconnectCommand (fun _ => true) Sample.users0 "/disconnect ALL" "alice" =
      (<["alice" := user']> Sample.users0,
       Returned [mkOutgoing "text"
                   (summary +:+ JSString.nl +:+ JSString.nl
                    +:+ "All message history has been cleared.")]) /\
    handleUserQuery Sample.berlin Sample.plainTimestamp (<["alice" := user']> Sample.users0)
      Sample.noon2April "any news" "alice"
    = [mkOutgoing "text" notConnectedText].
Proof.
  split; [reflexivity|]. split; [reflexivity|]. split; [reflexivity|].
  destruct (disconnect_all_then_query (fun _ => true) Sample.users0 "/disconnect ALL"
              "alice" Sample.alice eq_refl eq_refl (fun _ _ => eq_refl))
    as (user' & summary & H1 & _ & _ & _ & H2).
  exists user', summary. split; [exact H1 | apply H2].
Defined.

(** ** The entry point *)

Section EntryFacts.
Variable tz : JSDate.TimeZone.
Variable formatTimestamp : Z -> string.
Variable completes : Platform -> bool.
Variable channelCount : Platform -> nat.
Variable handleConnectCommand handleListCommand :
  gmap string UserConfig -> string -> string ->
  gmap string UserConfig * Outcome (list OutgoingMessage).

(** A text that begins with [/disconnect] is routed to the disconnect
    handler. *)
Lemma startsWith_disconnect (text : string) :
  JSString.startsWith text "/disconnect" = true ->
  JSString.startsWith text "/setup" = false /\
  JSString.startsWith text "/connect" = false /\
  JSString.startsWith text "/status" = false /\
  JSString.startsWith text "/list" = false.
Proof.
  intros H. apply JSStringFacts.startsWith_spec in H. destruct H as [post ->].
  repeat split; reflexivity.
Qed.

End EntryFacts.

(** X9. A failed disconnect.  When a known user asks to disconnect a
    connected platform and the client's disconnect call throws, the call of
    the entry point fails with it (the handler's promise is returned without
    being awaited, so the [catch] block and its apology do not apply), and
    nothing has changed: the platform still counts as connected and its
    history is not cleared. *)
Theorem failed_disconnect_keeps_state (tz : JSDate.TimeZone)
    (formatTimestamp : Z -> string) (completes : Platform -> bool)
    (channelCount : Platform -> nat)
    (handleConnectCommand handleListCommand :
       gmap string UserConfig -> string -> string ->
       gmap string UserConfig * Outcome (list OutgoingMessage))
    (users : gmap string UserConfig) (now : Z) (text uid : string)
    (user : UserConfig) (name : Platform) :
  JSString.startsWith text "/disconnect" = true ->
  commandPlatform text = Some (platformName name) ->
  users !! uid = Some user ->
  connected user name = true ->
  completes name = false ->
  messageHandler tz formatTimestamp completes channelCount
    handleConnectCommand handleListCommand users now (Some text) uid
  = (users, Threw).
Proof.
  intros Hroute Hcmd Huser Hconn Hthrows. unfold messageHandler.
  rewrite Huser.
  destruct (startsWith_disconnect text Hroute) as (H1 & H2 & H3 & H4).
  rewrite H1, H2, H3, H4, Hroute.
  unfold handleDisconnectCommand. rewrite Hcmd.
  destruct (platformOfName_platformName name) as (Hname & Hvalid & Hall & Hne).
  destruct (platformName name) as [|ch rest] eqn:En; [congruence|].
  rewrite Hvalid. cbn [negb]. rewrite Huser, Hall, Hname.
  rewrite (disconnectPlatform_throws completes user name Hconn Hthrows).
  now rewrite (insert_id users uid user Huser).
Qed.

Lemma failed_disconnect_keeps_state_witness :
  JSString.startsWith "/disconnect discord" "/disconnect" = true /\
  commandPlatform "/disconnect discord" = Some (platformName discord) /\
  Sample.users0 !! "alice" = Some Sample.alice /\
  connected Sample.alice discord = true /\
  messageHandler Sample.berlin Sample.plainTimestamp (fun _ => false) (fun _ => 0)
    (fun users _ _ => (users, Threw)) (fun users _ _ => (users, Threw))
    Sample.users0 Sample.noon2April (Some "/disconnect discord") "alice"
  = (Sample.users0, Threw).
Proof.
  repeat (split; [reflexivity|]).
  exact (failed_disconnect_keeps_state Sample.berlin Sample.plainTimestamp
           (fun _ => false) (fun _ => 0)
           (fun users _ _ => (users, Threw)) (fun users _ _ => (users, Threw))
           Sample.users0 Sample.noon2April "/disconnect discord" "alice"
           Sample.alice discord eq_refl eq_refl eq_refl eq_refl eq_refl).
Defined.

(** X10. A disconnect of everything that fails midway.  When a known user
    connected to Telegram and Discord asks to disconnect [all], the Telegram
    call completes and the Discord call throws, the handler ends by the
    throw with Telegram already marked disconnected, Discord still marked
    connected, and no history cleared, that of Telegram included. *)
Theorem disconnect_all_partial_failure (completes : Platform -> bool)
    (users : gmap string UserConfig) (text uid : string) (user : UserConfig) :
  commandPlatform text = Some "all" ->
  users !! uid = Some user ->
  connected user telegram = true ->
  connected user discord = true ->
  completes telegram = true ->
  completes discord = false ->
  exists user',
    handleDisconnectCommand completes users text uid = (<[uid := user']> users, Threw) /\
    messageHistory user' = messageHistory user /\
    connected user' telegram = false /\
    connected user' discord = true /\
    connected user' slack = connected user slack.
Proof.
  intros Hcmd Huser Ht Hd Hct Hcd. unfold handleDisconnectCommand. rewrite Hcmd.
  cbn [existsb String.eqb Ascii.eqb Bool.eqb orb negb]. rewrite Huser.
  destruct (disconnectPlatform_returns completes user telegram (fun _ => Hct))
    as (user1 & m1 & Hd1 & Hh1 & _ & Hc1 & Ho1).
  rewrite Hd1. cbv zeta.
  assert (Hd' : connected user1 discord = true).
  { now rewrite (Ho1 discord) by discriminate. }
  rewrite (disconnectPlatform_throws completes user1 discord Hd' Hcd).
  exists user1. split; [reflexivity|]. split; [exact Hh1|]. split; [exact Hc1|].
  split; [exact Hd'|]. now apply Ho1.
Qed.

Lemma disconnect_all_partial_failure_witness :
  commandPlatform "/disconnect all" = Some "all" /\
  deliverAll Sample.users0 Sample.deliveries3 !! "alice"
    = Some (mkUser "alice" (mkClients true true false)
              (mkHistory
                 [("general", [Sample.numbered 1; Sample.numbered 2; Sample.numbered 3])]
                 [("dev", [Sample.discordMessage "x" "build is green" "dev" "Bo" 5])]
                 [])) /\
  exists user',
    handleDisconnectCommand (fun p => match p with telegram => true | _ => false end)
      (deliverAll Sample.users0 Sample.deliveries3) "/disconnect all" "alice"
    = (<["alice" := user']> (deliverAll Sample.users0 Sample.deliveries3), Threw) /\
    connected user' telegram = false /\
    histTelegram (messageHistory user')
    = [("general", [Sample.numbered 1; Sample.numbered 2; Sample.numbered 3])].
Proof.
  split; [reflexivity|]. split; [reflexivity|].
  destruct (disconnect_all_partial_failure (fun p => match p with telegram => true | _ => false end)
              (deliverAll Sample.users0 Sample.deliveries3) "/disconnect all" "alice"
              _ eq_refl eq_refl eq_refl eq_refl eq_refl eq_refl)
    as (user' & H1 & H2 & H3 & _).
  exists user'. split; [exact H1|]. split; [exact H3|]. now rewrite H2.
Defined.



(** X12. First contact with a question.  When a user who has no entry yet
    sends a text that begins with none of the six commands, the entry point
    creates the entry, with no connection and no history, and answers with
    the "not connected" text, whatever the text asks. *)
Theorem first_contact_query (tz : JSDate.TimeZone)
    (formatTimestamp : Z -> string) (completes : Platform -> bool)
    (channelCount : Platform -> nat)
    (handleConnectCommand handleListCommand :
       gmap string UserConfig -> string -> string ->
       gmap string UserConfig * Outcome (list OutgoingMessage))
    (users : gmap string UserConfig) (now : Z) (text uid : string) :
  users !! uid = None ->
  (forall command,
     In command ["/setup"; "/connect"; "/status"; "/list"; "/disconnect"; "/help"] ->
     JSString.startsWith text command = false) ->
  messageHandler tz formatTimestamp completes channelCount
    handleConnectCommand handleListCommand users now (Some text) uid
  = (<[uid := mkUser uid (mkClients false false false) (mkHistory [] [] [])]> users,
     Returned [mkOutgoing "text" notConnectedText]).
Proof.
  intros Hnew Hfree. unfold messageHandler. rewrite Hnew.
  rewrite !Hfree by (simpl; auto 10).
  unfold handleUserQuery. now rewrite lookup_insert_eq.
Qed.

Lemma first_contact_query_witness :
  Sample.users0 !! "zoe" = None /\
  (forall command,
     In command ["/setup"; "/connect"; "/status"; "/list"; "/disconnect"; "/help"] ->
     JSString.startsWith "what is new on discord" command = false) /\
  snd (messageHandler Sample.berlin Sample.plainTimestamp (fun _ => true)
         (fun _ => 0) (fun users _ _ => (users, Threw))
         (fun users _ _ => (users, Threw))
         Sample.users0 Sample.noon2April (Some "what is new on discord") "zoe")
  = Returned [mkOutgoing "text" notConnectedText].
Proof.
  assert (H : forall command,
     In command ["/setup"; "/connect"; "/status"; "/list"; "/disconnect"; "/help"] ->
     JSString.startsWith "what is new on discord" command = false).
  { intros command [<-|[<-|[<-|[<-|[<-|[<-|[]]]]]]]; reflexivity. }
  split; [reflexivity|]. split; [exact H|].
  rewrite (first_contact_query Sample.berlin Sample.plainTimestamp (fun _ => true)
             (fun _ => 0) (fun users _ _ => (users, Threw))
             (fun users _ _ => (users, Threw))
             Sample.users0 Sample.noon2April "what is new on discord" "zoe" eq_refl H).
  reflexivity.
Defined.

(** ** More on the query interpreter *)

Lemma mentionedPlatforms_In (query : string) (entries : list (Platform * list string))
    (p : Platform) :
  In p (mentionedPlatforms query entries) <->
  exists keywords, In (p, keywords) entries /\ mentionsAny query keywords = true.
Proof.
  induction entries as [|[p' kws] rest IH]; simpl.
  - split; [intros [] | intros (? & [] & _)].
  - destruct (mentionsAny query kws) eqn:E; simpl; rewrite IH; split.
    + intros [<-|(k & Hin & Hk)]; [exists kws | exists k]; auto.
    + intros (k & [[= <- <-]|Hin] & Hk); [now left | right; now exists k].
    + intros (k & Hin & Hk). exists k. auto.
    + intros (k & [[= <- <-]|Hin] & Hk); [congruence | now exists k].
Qed.

Lemma mentionedPlatforms_nil (query : string) (entries : list (Platform * list string)) :
  mentionedPlatforms query entries = [] <->
  forall p keywords, In (p, keywords) entries -> mentionsAny query keywords = false.
Proof.
  split.
  - intros Hnil p kws Hin. apply not_true_is_false. intros Hm.
    assert (Hp : In p (mentionedPlatforms query entries))
      by (apply mentionedPlatforms_In; now exists kws).
    now rewrite Hnil in Hp.
  - intros Hnone. destruct (mentionedPlatforms query entries) as [|p l] eqn:E;
      [reflexivity|].
    assert (Hp : In p (mentionedPlatforms query entries)) by (rewrite E; now left).
    apply mentionedPlatforms_In in Hp. destruct Hp as (kws & Hin & Hm).
    rewrite (Hnone p kws Hin) in Hm. discriminate.
Qed.

(** X13. Which platforms a query is run on.  A platform is searched
    exactly when the lowercased query contains one of its trigger words as a
    substring, whether or not the user is connected to it, or when the query
    contains no trigger word of any platform and the user is connected to
    it.  The platforms come without repetition in the order telegram,
    discord, slack. *)
Theorem detect_platforms_spec (query : string) (user : UserConfig) :
  (forall p,
     In p (detectPlatforms query user) <->
     (exists keywords, In (p, keywords) platformKeywords /\
                       mentionsAny query keywords = true)
     \/ ((forall p' keywords, In (p', keywords) platformKeywords ->
                              mentionsAny query keywords = false)
         /\ connected user p = true)) /\
  isSubsequence (detectPlatforms query user) [telegram; discord; slack] = true.
Proof.
  split.
  - intros p. unfold detectPlatforms.
    destruct (mentionedPlatforms query platformKeywords) as [|p0 l] eqn:E.
    + cbn [length Nat.eqb].
      pose proof (proj1 (mentionedPlatforms_nil query platformKeywords) E) as Hnone.
      split.
      * intros Hin. right. split; [exact Hnone|].
        unfold connected.
        destruct (clientTelegram (platformClients user)),
                 (clientDiscord (platformClients user)),
                 (clientSlack (platformClients user)); simpl in Hin;
          repeat (destruct Hin as [<-|Hin]; [reflexivity|]); destruct Hin.
      * intros [(kws & Hin & Hm) | (_ & Hc)].
        -- rewrite (Hnone p kws Hin) in Hm. discriminate.
        -- unfold connected in Hc.
           destruct p; rewrite Hc; simpl;
             destruct (clientTelegram (platformClients user)),
                      (clientDiscord (platformClients user)),
                      (clientSlack (platformClients user)); simpl; auto.
    + cbn [length Nat.eqb]. rewrite <- E, mentionedPlatforms_In. split; [auto|].
      intros [H | (Hnone & _)]; [exact H|].
      apply mentionedPlatforms_nil in Hnone. congruence.
  - unfold detectPlatforms, platformKeywords. cbn [mentionedPlatforms].
    destruct (mentionsAny query ["telegram"; "tg"]),
             (mentionsAny query ["discord"; "dc"; "server"]),
             (mentionsAny query ["slack"; "sl"]),
             (clientTelegram (platformClients user)),
             (clientDiscord (platformClients user)),
             (clientSlack (platformClients user)); reflexivity.
Qed.

Section KeywordFacts.
Import JSString.






End KeywordFacts.



Section HintFacts.
Import JSString.

Lemma spanChars_append (f : ascii -> bool) (s a b : string) :
  spanChars f s = (a, b) -> s = a +:+ b.
Proof.
  revert a b. induction s as [|c s IH]; intros a b; simpl.
  - intros [= <- <-]. reflexivity.
  - destruct (f c).
    + destruct (spanChars f s) as [a' b'] eqn:E. intros [= <- <-].
      rewrite JSStringFacts.append_cons. now rewrite (IH a' b' eq_refl).
    + intros [= <- <-]. reflexivity.
Qed.

Lemma includes_cons (c : ascii) (s sub : string) :
  includes s sub = true -> includes (String c s) sub = true.
Proof. intros H. cbn [includes]. rewrite H. apply orb_true_r. Qed.

Lemma includes_prefix (a b : string) : includes (a +:+ b) a = true.
Proof. apply JSStringFacts.includes_spec. now exists EmptyString, b. Qed.

Lemma includes_suffix_part (a b sub : string) :
  includes b sub = true -> includes (a +:+ b) sub = true.
Proof.
  rewrite !JSStringFacts.includes_spec. intros (pre & post & ->).
  exists (a +:+ pre), post. now rewrite JSStringFacts.append_assoc.
Qed.

(** Every match of the channel pattern is a hash sign followed by a
    non-empty token that occurs in the subject. *)
Lemma matchChannelPattern_matches (fuel : nat) (s m : string) :
  In m (matchChannelPattern fuel s) ->
  exists c token, m = String c (String token.1 token.2) /\
    includes s (String token.1 token.2) = true.
Proof.
  revert s. induction fuel as [|fuel IH]; intros s; simpl; [intros []|].
  destruct s as [|c s]; [intros []|].
  destruct (Ascii.eqb c "#").
  - destruct (spanChars isChannelChar s) as [token rest] eqn:E.
    pose proof (spanChars_append _ _ _ _ E) as Hs.
    destruct token as [|t token].
    + intros Hin. destruct (IH s Hin) as (c' & tk & -> & Hinc).
      exists c', tk. split; [reflexivity | now apply includes_cons].
    + intros [<-|Hin].
      * exists c, (t, token). split; [reflexivity|]. apply includes_cons.
        rewrite Hs. apply includes_prefix.
      * destruct (IH rest Hin) as (c' & tk & -> & Hinc).
        exists c', tk. split; [reflexivity|]. apply includes_cons.
        rewrite Hs. now apply includes_suffix_part.
  - intros Hin. destruct (IH s Hin) as (c' & tk & -> & Hinc).
    exists c', tk. split; [reflexivity | now apply includes_cons].
Qed.

(** Every capture of the quoted pattern is non-empty and occurs in the
    subject. *)
Lemma matchQuotedPattern_matches (fuel : nat) (s m : string) :
  In m (matchQuotedPattern fuel s) ->
  m <> EmptyString /\ includes s m = true.
Proof.
  revert s. induction fuel as [|fuel IH]; intros s; simpl; [intros []|].
  destruct s as [|c s]; [intros []|].
  destruct (Ascii.eqb c dquote || Ascii.eqb c squote).
  - unfold closeQuote.
    destruct (spanChars (fun c0 => negb (Ascii.eqb c0 c)) s) as [inner rest] eqn:E.
    pose proof (spanChars_append _ _ _ _ E) as Hs.
    destruct inner as [|x inner]; [|destruct rest as [|y rest]].
    + intros Hin. destruct (IH s Hin) as [H1 H2]. split; [exact H1 | now apply includes_cons].
    + intros Hin. destruct (IH s Hin) as [H1 H2]. split; [exact H1 | now apply includes_cons].
    + intros [<-|Hin].
      * split; [discriminate|]. apply includes_cons. rewrite Hs. apply includes_prefix.
      * destruct (IH rest Hin) as [H1 H2]. split; [exact H1|].
        apply includes_cons. rewrite Hs. apply includes_suffix_part.
        now apply includes_cons.
  - intros Hin. destruct (IH s Hin) as [H1 H2]. split; [exact H1 | now apply includes_cons].
Qed.
End HintFacts.

(** X15. Shape of the channel hints.  Every channel hint extracted from a
    query is non-empty and occurs in the query as written, letter case
    kept; so no hint matches every channel name by being empty. *)
Theorem channel_hints_shape (query hint : string) :
  In hint (channelMentions query) ->
  hint <> EmptyString /\ JSString.includes query hint = true.
Proof.
  unfold channelMentions. rewrite in_app_iff, in_map_iff.
  intros [(m & <- & Hin) | Hin].
  - apply matchChannelPattern_matches in Hin.
    destruct Hin as (c & [t token] & -> & Hinc). simpl. split; [discriminate | exact Hinc].
  - now apply matchQuotedPattern_matches in Hin.
Qed.

Lemma channel_hints_shape_witness :
  In "Project Team" (channelMentions "Find mentions of bug in #general and 'Project Team'") /\
  JSString.includes "Find mentions of bug in #general and 'Project Team'" "Project Team"
    = true.
Proof.
  assert (H : In "Project Team"
                (channelMentions "Find mentions of bug in #general and 'Project Team'"))
    by (vm_compute; auto).
  split; [exact H|]. exact (proj2 (channel_hints_shape _ _ H)).
Defined.

(** ** More on the result formatter *)

Section SortMore.
Variable platform : Platform.

Lemma withTimestamp_insert (t : Z) (x : Message) (l : list Message) :
  withTimestamp platform t (insertNewestFirst platform x l) =
    withTimestamp platform t (x :: l).
Proof.
  unfold withTimestamp. induction l as [|y l IH]; [reflexivity|].
  cbn [insertNewestFirst].
  destruct (msgTimestamp platform x <? msgTimestamp platform y)%Z eqn:E; [|reflexivity].
  apply Z.ltb_lt in E. cbn [List.filter] in *. rewrite IH.
  destruct (msgTimestamp platform y =? t)%Z eqn:Ey;
    destruct (msgTimestamp platform x =? t)%Z eqn:Ex; try reflexivity.
  apply Z.eqb_eq in Ex, Ey. lia.
Qed.

Lemma withTimestamp_sort (t : Z) (l : list Message) :
  withTimestamp platform t (sortNewestFirst platform l) = withTimestamp platform t l.
Proof.
  induction l as [|x l IH]; [reflexivity|].
  cbn [sortNewestFirst]. rewrite withTimestamp_insert.
  unfold withTimestamp in *. cbn [List.filter]. now rewrite IH.
Qed.
End SortMore.

(** X16. The sort of the formatter.  The messages of a channel are shown
    newest first: the sorted list is a rearrangement of the list found, no
    message comes before a strictly newer one, and messages that carry the
    same timestamp keep the order in which they were found. *)
Theorem sort_newest_first_stable (platform : Platform) (l : list Message) :
  Permutation (sortNewestFirst platform l) l /\
  Sorted (fun a b => (msgTimestamp platform b <= msgTimestamp platform a)%Z)
    (sortNewestFirst platform l) /\
  (forall t, withTimestamp platform t (sortNewestFirst platform l)
             = withTimestamp platform t l).
Proof.
  split; [apply sortNewestFirst_perm|]. split; [apply sortNewestFirst_sorted|].
  intros t. apply withTimestamp_sort.
Qed.

Section DisplayFacts.
Implicit Types (ps qs : list Piece) (st : FormatState) (platform : Platform).

Lemma renderedMessages_app ps qs :
  renderedMessages (ps ++ qs) = renderedMessages ps ++ renderedMessages qs.
Proof.
  induction ps as [|p ps IH]; [reflexivity|].
  destruct p; simpl; now rewrite ?IH.
Qed.

Lemma renderedMessages_messages platform (l : list Message) :
  renderedMessages (map (PMessage platform) l) = map (pair platform) l.
Proof. induction l as [|m l IH]; simpl; [reflexivity | now rewrite IH]. Qed.

Lemma renderedMessages_length ps : length (renderedMessages ps) = countMessages ps.
Proof.
  induction ps as [|p ps IH]; [reflexivity|].
  destruct p; simpl; now rewrite ?IH.
Qed.

(** Cutting a middle part to the room that is left does not change the
    first [n] elements. *)
Lemma firstn_cut_middle {A} (n : nat) (front middle rest : list A) :
  length front <= n ->
  firstn n ((front ++ firstn (n - length front) middle) ++ rest) =
  firstn n (front ++ middle ++ rest).
Proof.
  intros Hle. rewrite <- app_assoc. rewrite !(firstn_app n front). f_equal.
  set (k := n - length front).
  destruct (le_lt_dec (length middle) k) as [Hm|Hm].
  - now rewrite (firstn_all2 (n:=k) middle) by exact Hm.
  - rewrite !firstn_app. rewrite firstn_firstn, Nat.min_id.
    rewrite length_firstn.
    replace (k - Nat.min k (length middle)) with 0 by lia.
    replace (k - length middle) with 0 by lia. reflexivity.
Qed.

Lemma firstn_full_front {A} (n : nat) (front rest : list A) :
  length front = n -> firstn n (front ++ rest) = front.
Proof.
  intros <-. rewrite firstn_app, Nat.sub_diag, firstn_all. simpl. apply app_nil_r.
Qed.

Lemma firstn_firstn_app {A} (n : nat) (l rest : list A) :
  firstn n (firstn n l ++ rest) = firstn n (l ++ rest).
Proof.
  destruct (le_lt_dec (length l) n) as [Hle|Hgt].
  - now rewrite (firstn_all2 (n:=n) l) by exact Hle.
  - rewrite firstn_full_front by (rewrite length_firstn; lia).
    rewrite firstn_app. replace (n - length l) with 0 by lia.
    simpl. now rewrite app_nil_r.
Qed.

(** One turn of the channel loop keeps the invariant. *)
Lemma formatChannels_step platform (r : SearchResult) st :
  formatInvariant st ->
  (totalMessagesDisplayed st < MAX_MESSAGES_TO_DISPLAY)%nat ->
  let shown :=
    firstn (MAX_MESSAGES_TO_DISPLAY - totalMessagesDisplayed st)
      (sortNewestFirst platform (messages r)) in
  formatInvariant
    (emit (emit (mkFormatState
                   (response (emit st [PChannelHeader (infoName (channelInfo r))]))
                   (totalMessagesDisplayed st + length shown))
             (map (PMessage platform) shown))
       [PSeparator]).
Proof.
  intros (Hc & Hle & Hh & Hn) E shown.
  assert (Hshown : length shown <= MAX_MESSAGES_TO_DISPLAY - totalMessagesDisplayed st).
  { unfold shown. rewrite length_firstn. lia. }
  unfold formatInvariant, emit. cbn [response totalMessagesDisplayed]. repeat split.
  - rewrite !countMessages_app, countMessages_messages. simpl. lia.
  - lia.
  - rewrite !headersBelowCap_app, Hh, headersBelowCap_messages. simpl.
    rewrite <- Hc, ?andb_true_r. now apply Nat.ltb_lt.
  - rewrite !Forall_app. repeat split; auto.
    apply List.Forall_forall. intros p Hp. apply List.in_map_iff in Hp.
    now destruct Hp as (m & <- & _).
Qed.

Lemma formatChannels_rendered platform (results : list SearchResult) st :
  formatInvariant st ->
  renderedMessages (response (formatChannels platform results st)) =
    firstn MAX_MESSAGES_TO_DISPLAY
      (renderedMessages (response st) ++
       flat_map (fun result =>
                   map (pair platform) (sortNewestFirst platform (messages result)))
         results).
Proof.
  revert st. induction results as [|r rs IH]; intros st Hinv.
  - destruct Hinv as (Hc & Hle & _). cbn [formatChannels flat_map].
    rewrite app_nil_r, firstn_all2; [reflexivity|].
    rewrite renderedMessages_length. lia.
  - pose proof Hinv as (Hc & Hle & _). cbn [formatChannels flat_map].
    destruct (MAX_MESSAGES_TO_DISPLAY <=? totalMessagesDisplayed st)%nat eqn:E.
    + apply Nat.leb_le in E. symmetry. apply firstn_full_front.
      rewrite renderedMessages_length. lia.
    + apply Nat.leb_gt in E. cbv zeta.
      pose proof (formatChannels_step platform r st Hinv E) as Hstep. cbv zeta in Hstep.
      match goal with |- context [formatChannels platform rs ?s] => set (st' := s) end.
      assert (Hinv' : formatInvariant st') by exact Hstep.
      rewrite (IH st' Hinv'). unfold st', emit. cbn [response totalMessagesDisplayed].
      rewrite !renderedMessages_app, renderedMessages_messages. simpl.
      rewrite !app_nil_r. rewrite <- List.firstn_map.
      replace (totalMessagesDisplayed st) with (length (renderedMessages (response st)))
        by (rewrite renderedMessages_length; lia).
      rewrite firstn_cut_middle; [reflexivity|].
      rewrite renderedMessages_length. lia.
Qed.

Lemma formatPlatforms_rendered (entries : list (Platform * list SearchResult)) st :
  formatInvariant st ->
  renderedMessages (response (formatPlatforms entries st)) =
    firstn MAX_MESSAGES_TO_DISPLAY (renderedMessages (response st) ++ displayOrder entries).
Proof.
  revert st. induction entries as [|[platform results] rest IH]; intros st Hinv.
  - destruct Hinv as (Hc & Hle & _). unfold displayOrder. cbn [formatPlatforms flat_map].
    rewrite app_nil_r, firstn_all2; [reflexivity|].
    rewrite renderedMessages_length. lia.
  - pose proof Hinv as (Hc & Hle & Hh & Hn). cbn [formatPlatforms].
    destruct (MAX_MESSAGES_TO_DISPLAY <=? totalMessagesDisplayed st)%nat eqn:E.
    + apply Nat.leb_le in E. symmetry. apply firstn_full_front.
      rewrite renderedMessages_length. lia.
    + apply Nat.leb_gt in E. cbv zeta.
      assert (Hinv1 : formatInvariant (emit st [PPlatformHeader platform])).
      { unfold formatInvariant, emit. cbn [response totalMessagesDisplayed].
        repeat split.
        - rewrite countMessages_app. simpl. lia.
        - exact Hle.
        - rewrite headersBelowCap_app, Hh. simpl. rewrite <- Hc, ?andb_true_r.
          now apply Nat.ltb_lt.
        - rewrite Forall_app. split; [exact Hn | now repeat constructor]. }
      destruct (formatChannels_invariant platform results _ Hinv1) as [Hinv2 _].
      rewrite (IH _ Hinv2), (formatChannels_rendered platform results _ Hinv1).
      unfold emit. cbn [response]. rewrite renderedMessages_app. simpl.
      rewrite app_nil_r. unfold displayOrder. cbn [flat_map fst snd].
      rewrite firstn_firstn_app. now rewrite app_assoc.
Qed.
End DisplayFacts.

(** X17. What is rendered, and in which order.  The messages rendered in a
    response are the first 20 of all matching messages taken platform after
    platform and channel after channel in the order of the search results,
    newest first within each channel; when at most 20 messages match, all of
    them are rendered. *)
Theorem rendered_in_display_order (query : string)
    (searchResults : list (Platform * list SearchResult)) :
  renderedMessages (formatResponse query searchResults) =
    firstn 20 (displayOrder searchResults) /\
  length (displayOrder searchResults) = totalMessages searchResults /\
  (totalMessages searchResults <= 20 ->
   renderedMessages (formatResponse query searchResults) = displayOrder searchResults).
Proof.
  assert (Hlen : length (displayOrder searchResults) = totalMessages searchResults).
  { unfold displayOrder, totalMessages.
    induction searchResults as [|[p rs] rest IH]; [reflexivity|].
    cbn [flat_map fst snd]. rewrite !length_app, IH. f_equal.
    induction rs as [|r rs IHr]; [reflexivity|].
    cbn [flat_map]. rewrite !length_app, IHr, length_map, sortNewestFirst_length.
    reflexivity. }
  assert (Hmain : renderedMessages (formatResponse query searchResults) =
                  firstn 20 (displayOrder searchResults)).
  { unfold formatResponse.
    destruct (length (JSMap.keys searchResults) =? 0)%nat eqn:Ekeys.
    - apply Nat.eqb_eq in Ekeys. unfold JSMap.keys in Ekeys. rewrite length_map in Ekeys.
      destruct searchResults; [reflexivity | discriminate].
    - assert (Hinit : formatInvariant (mkFormatState [PTitle query] 0)).
      { unfold formatInvariant. cbn. repeat split; try lia. now repeat constructor. }
      pose proof (formatPlatforms_rendered searchResults _ Hinit) as Hr.
      cbn [response renderedMessages app] in Hr.
      change MAX_MESSAGES_TO_DISPLAY with 20 in Hr.
      destruct (_ <? _)%nat; [|exact Hr].
      rewrite renderedMessages_app. simpl. now rewrite app_nil_r. }
  split; [exact Hmain|]. split; [exact Hlen|].
  intros Hle. rewrite Hmain. apply firstn_all2. lia.
Qed.

(** ** More on the search *)

Section SearchMore.
Variable tz : JSDate.TimeZone.

Lemma jsmap_set_nonempty {K V : Type} `{EqDecision K} (k : K) (v : V)
    (m : list (K * V)) : JSMap.set k v m <> [].
Proof. destruct m as [|[k' v'] m]; simpl; [discriminate|]. now destruct (decide (k = k')). Qed.

(** The gathered results are empty exactly when they started empty and no
    searched platform has a result. *)
Lemma searchPlatforms_empty (user : UserConfig) (now : Z)
    (keywords channelHints : list string) (timeRange : string)
    (platforms : list Platform) (acc : list (Platform * list SearchResult)) :
  searchPlatforms tz user now keywords channelHints timeRange platforms acc = [] <->
  acc = [] /\
  forall p, In p platforms ->
    searchMessages tz user now p keywords channelHints timeRange = [].
Proof.
  revert acc. induction platforms as [|p ps IH]; intros acc; cbn [searchPlatforms].
  - split; [intros ->; split; [reflexivity | intros ? []] | now intros [-> _]].
  - rewrite IH.
    destruct (searchMessages tz user now p keywords channelHints timeRange)
      as [|r rs] eqn:E; cbn [length Nat.ltb Nat.leb].
    + split.
      * intros [-> Hall]. split; [reflexivity|]. intros p' [<-|Hin]; auto.
      * intros [-> Hall]. split; [reflexivity|]. intros p' Hin. apply Hall. now right.
    + split.
      * intros [Hset _]. now apply jsmap_set_nonempty in Hset.
      * intros [_ Hall]. specialize (Hall p (or_introl eq_refl)). congruence.
Qed.

Lemma searchChannels_ids (platform : Platform) (h : list (string * list Message))
    (keywords : list string) (cutoff : Z) (channels : list string) :
  map (fun r => infoId (channelInfo r))
    (searchChannels platform h keywords cutoff channels) =
  List.filter
    (fun c => existsb (messageMatches platform keywords cutoff) (channelMessagesOf h c))
    channels.
Proof.
  induction channels as [|c cs IH]; [reflexivity|].
  cbn [searchChannels List.filter].
  destruct (channelMessagesOf h c) as [|first rest] eqn:E; [exact IH|].
  set (msgs := first :: rest).
  assert (Hex : existsb (messageMatches platform keywords cutoff) msgs =
                (0 <? length (List.filter (messageMatches platform keywords cutoff) msgs))%nat).
  { clearbody msgs. induction msgs as [|m ms IHm]; [reflexivity|].
    simpl. destruct (messageMatches platform keywords cutoff m); [reflexivity | exact IHm]. }
  rewrite Hex. destruct (0 <? _)%nat; simpl; now rewrite IH.
Qed.

Lemma messageMatches_earlier_cutoff (platform : Platform) (keywords : list string)
    (cutoff cutoff' : Z) (m : Message) :
  (cutoff' <= cutoff)%Z ->
  messageMatches platform keywords cutoff m = true ->
  messageMatches platform keywords cutoff' m = true.
Proof.
  intros Hle. unfold messageMatches.
  destruct (msgTimestamp platform m <? cutoff)%Z eqn:E; [discriminate|].
  apply Z.ltb_ge in E.
  destruct (msgTimestamp platform m <? cutoff')%Z eqn:E'; [|auto].
  apply Z.ltb_lt in E'. lia.
Qed.
End SearchMore.

(** The formatting loops only append to the response. *)
Lemma formatChannels_prefix (platform : Platform) (results : list SearchResult)
    (st : FormatState) :
  exists ext, response (formatChannels platform results st) = response st ++ ext.
Proof.
  revert st. induction results as [|r rs IH]; intros st; cbn [formatChannels].
  - exists []. now rewrite app_nil_r.
  - destruct (_ <=? _)%nat; [exists []; now rewrite app_nil_r|]. cbv zeta.
    match goal with |- context [formatChannels platform rs ?s] => destruct (IH s) as [ext Hext] end.
    rewrite Hext. unfold emit. cbn [response]. rewrite <- !app_assoc. eauto.
Qed.

Lemma formatPlatforms_prefix (entries : list (Platform * list SearchResult))
    (st : FormatState) :
  exists ext, response (formatPlatforms entries st) = response st ++ ext.
Proof.
  revert st. induction entries as [|[platform results] rest IH]; intros st;
    cbn [formatPlatforms].
  - exists []. now rewrite app_nil_r.
  - destruct (_ <=? _)%nat; [exists []; now rewrite app_nil_r|]. cbv zeta.
    match goal with |- context [formatPlatforms rest ?s] => destruct (IH s) as [ext Hext] end.
    rewrite Hext.
    destruct (formatChannels_prefix platform results (emit st [PPlatformHeader platform]))
      as [ext' Hext'].
    rewrite Hext'. unfold emit. cbn [response]. rewrite <- !app_assoc. eauto.
Qed.

(** X18. When nothing is found.  For a known user with a connected
    platform, the answer to a query is the "couldn't find any messages" text
    exactly when the search returns no channel on every platform the query
    is run on; otherwise the answer begins with the results title. *)
Theorem no_match_exactly (tz : JSDate.TimeZone) (formatTimestamp : Z -> string)
    (users : gmap string UserConfig) (now : Z) (query uid : string)
    (user : UserConfig) :
  users !! uid = Some user ->
  clientTelegram (platformClients user)
    || clientDiscord (platformClients user)
    || clientSlack (platformClients user) = true ->
  (handleUserQuery tz formatTimestamp users now query uid
     = [mkOutgoing "text" (noMatchText query)]
   <->
   forall p, In p (detectPlatforms query user) ->
     searchMessages tz user now p (queryWords query) (channelMentions query)
       (detectTimeRange query) = []) /\
  ((exists p, In p (detectPlatforms query user) /\
      searchMessages tz user now p (queryWords query) (channelMentions query)
        (detectTimeRange query) <> []) ->
   exists rest,
     handleUserQuery tz formatTimestamp users now query uid
     = [mkOutgoing "text" (renderPiece formatTimestamp (PTitle query) +:+ rest)]).
Proof.
  intros Huser Hconn.
  rewrite (handleUserQuery_connected tz formatTimestamp users now query uid user Huser Hconn).
  set (sr := searchPlatforms tz user now (queryWords query) (channelMentions query)
               (detectTimeRange query) (detectPlatforms query user) []).
  assert (Hsr : sr = [] <->
            forall p, In p (detectPlatforms query user) ->
              searchMessages tz user now p (queryWords query) (channelMentions query)
                (detectTimeRange query) = []).
  { unfold sr. rewrite searchPlatforms_empty. tauto. }
  assert (Htitle : sr <> [] ->
            exists rest, renderResponse formatTimestamp (formatResponse query sr)
                         = renderPiece formatTimestamp (PTitle query) +:+ rest).
  { intros Hne. unfold formatResponse.
    destruct sr as [|[p0 rs0] sr']; [congruence|]. cbn [JSMap.keys map length Nat.eqb].
    destruct (formatPlatforms_prefix ((p0, rs0) :: sr') (mkFormatState [PTitle query] 0))
      as [ext Hext].
    cbn [response] in Hext. rewrite Hext.
    destruct (_ <? _)%nat; eexists;
      rewrite <- ?app_assoc; cbn [app renderResponse fold_right]; reflexivity. }
  split.
  - rewrite <- Hsr. split.
    + intros Heq. destruct sr as [|e sr'] eqn:Esr; [reflexivity|]. exfalso.
      destruct Htitle as [rest Hrest]; [discriminate|].
      rewrite Hrest in Heq. injection Heq as Heq.
      unfold renderPiece, noMatchText in Heq. discriminate.
    + intros ->. cbn. now rewrite JSStringFacts.append_nil_r.
  - intros (p & Hin & Hne).
    destruct Htitle as [rest Hrest].
    + intros Hnil. apply Hne. exact (proj1 Hsr Hnil p Hin).
    + exists rest. now rewrite Hrest.
Qed.

Lemma no_match_exactly_witness :
  <["dana" := Sample.dana]> Sample.users0 !! "dana" = Some Sample.dana /\
  clientTelegram (platformClients Sample.dana)
    || clientDiscord (platformClients Sample.dana)
    || clientSlack (platformClients Sample.dana) = true /\
  exists rest,
    handleUserQuery Sample.berlin Sample.plainTimestamp
      (<["dana" := Sample.dana]> Sample.users0) Sample.noon2April "repo activity" "dana"
    = [mkOutgoing "text"
         (renderPiece Sample.plainTimestamp (PTitle "repo activity") +:+ rest)].
Proof.
  assert (H1 : <["dana" := Sample.dana]> Sample.users0 !! "dana" = Some Sample.dana)
    by reflexivity.
  assert (H2 : clientTelegram (platformClients Sample.dana)
               || clientDiscord (platformClients Sample.dana)
               || clientSlack (platformClients Sample.dana) = true) by reflexivity.
  split; [exact H1|]. split; [exact H2|].
  apply (proj2 (no_match_exactly Sample.berlin Sample.plainTimestamp
                  (<["dana" := Sample.dana]> Sample.users0) Sample.noon2April
                  "repo activity" "dana" Sample.dana H1 H2)).
  exists discord. split; [now left | discriminate].
Defined.

(** X19. The time windows are nested and open-ended.  In a zone with a
    fixed offset the four cutoffs are ordered: this week's is before
    yesterday's, which is at or before the one of recent, which is before
    today's, which is at or before [now].  As the filter only bounds
    timestamps from below, every message that matches under today matches
    under recent, under yesterday and under thisWeek: a query about
    yesterday also returns the messages of today. *)
Theorem time_windows_nested (offset now : Z) (platform : Platform)
    (keywords : list string) (m : Message) :
  let cutoff := cutoffTime (JSDate.fixedZone offset) now in
  ((cutoff "thisWeek" < cutoff "yesterday")%Z /\
   (cutoff "yesterday" <= cutoff "recent")%Z /\
   (cutoff "recent" < cutoff "today")%Z /\
   (cutoff "today" <= now)%Z) /\
  (messageMatches platform keywords (cutoff "today") m = true ->
   messageMatches platform keywords (cutoff "recent") m = true) /\
  (messageMatches platform keywords (cutoff "recent") m = true ->
   messageMatches platform keywords (cutoff "yesterday") m = true) /\
  (messageMatches platform keywords (cutoff "yesterday") m = true ->
   messageMatches platform keywords (cutoff "thisWeek") m = true).
Proof.
  intros cutoff. subst cutoff.
  destruct (cutoff_fixed_zone offset now) as (Ht & Hy & Hw & Hr). cbv zeta in *.
  pose proof (JSDateFacts.startOfDay_same_day (now + offset)) as [_ Hday].
  unfold JSDate.msPerDay in *.
  assert (Horder :
    (cutoffTime (JSDate.fixedZone offset) now "thisWeek"
       < cutoffTime (JSDate.fixedZone offset) now "yesterday")%Z /\
    (cutoffTime (JSDate.fixedZone offset) now "yesterday"
       <= cutoffTime (JSDate.fixedZone offset) now "recent")%Z /\
    (cutoffTime (JSDate.fixedZone offset) now "recent"
       < cutoffTime (JSDate.fixedZone offset) now "today")%Z /\
    (cutoffTime (JSDate.fixedZone offset) now "today" <= now)%Z).
  { rewrite Ht, Hy, Hw, Hr. lia. }
  split; [exact Horder|]. destruct Horder as (H1 & H2 & H3 & H4).
  repeat split; apply messageMatches_earlier_cutoff; lia.
Qed.

(** X20. One result per channel, in channel order.  The channel ids of the
    results of a search are the channels to search that have a matching
    message, in the order of the channels to search, which is the order in
    which the channels were first stored. *)
Theorem search_results_in_channel_order (tz : JSDate.TimeZone) (user : UserConfig)
    (now : Z) (platform : Platform) (keywords channelHints : list string)
    (timeRange : string) :
  let h := historyOf (messageHistory user) platform in
  let cutoff := cutoffTime tz now timeRange in
  map (fun r => infoId (channelInfo r))
    (searchMessages tz user now platform keywords channelHints timeRange) =
  List.filter
    (fun c => existsb (messageMatches platform keywords cutoff) (channelMessagesOf h c))
    (if (0 <? length channelHints)%nat
     then List.filter (channelMatchesHints platform h channelHints) (JSMap.keys h)
     else JSMap.keys h).
Proof. intros h cutoff. unfold searchMessages. apply searchChannels_ids. Qed.

(** ** Storing, then searching *)

Lemma last_bounded_push (l : list Message) (m : Message) :
  In m (let pushed := l ++ [m] in
        if (MAX_HISTORY_PER_CHANNEL <? length pushed)%nat then shift pushed else pushed).
Proof.
  cbv zeta. destruct l as [|x l].
  - simpl. now left.
  - destruct (_ <? _)%nat.
    + unfold shift. simpl. apply in_or_app. right. now left.
    + apply in_or_app. right. now left.
Qed.

(** X21. What is stored is found.  After a delivery to a known user, a
    search of that platform without channel hints, under any keywords and
    time range that the delivered message passes, returns a result for the
    addressed channel, and the delivered message is among its messages. *)
Theorem stored_message_is_found (tz : JSDate.TimeZone)
    (users : gmap string UserConfig) (u : string) (platform : Platform)
    (c : string) (m : Message) (user : UserConfig) (now : Z)
    (keywords : list string) (timeRange : string) :
  users !! u = Some user ->
  messageMatches platform keywords (cutoffTime tz now timeRange) m = true ->
  exists user' r,
    storeMessage users u platform c m !! u = Some user' /\
    In r (searchMessages tz user' now platform keywords [] timeRange) /\
    infoId (channelInfo r) = c /\
    In m (messages r).
Proof.
  intros Hu Hmatch. rewrite (storeMessage_known users u platform c m user Hu).
  set (pushed := let pushed := channelMessagesOf (historyOf (messageHistory user) platform) c
                                 ++ [m] in
                 if (MAX_HISTORY_PER_CHANNEL <? length pushed)%nat
                 then shift pushed else pushed).
  assert (Hin : In m pushed) by apply last_bounded_push.
  destruct pushed as [|first rest] eqn:Ep; [destruct Hin|].
  exists (setHistory user platform
            (JSMap.set c (first :: rest) (historyOf (messageHistory user) platform))).
  exists (mkResult
            (List.filter (messageMatches platform keywords (cutoffTime tz now timeRange))
               (first :: rest))
            (mkChannelInfo c (msgChannelName platform first))).
  split; [apply lookup_insert_eq|]. split; [|split; [reflexivity|]].
  - unfold searchMessages. apply searchChannels_In. exists c, first, rest.
    rewrite historyOf_setHistory_eq. split; [|split; [|split; [|reflexivity]]].
    + unfold channelsToSearch. cbn [length Nat.ltb Nat.leb].
      apply JSMapFacts.keys_set_In. now left.
    + unfold channelMessagesOf. now rewrite JSMapFacts.get_set_eq.
    + intros Hnil. rewrite filter_nil_all in Hnil.
      rewrite (Hnil m Hin) in Hmatch. discriminate.
  - cbn [messages]. apply List.filter_In. split; [exact Hin | exact Hmatch].
Qed.

Lemma stored_message_is_found_witness :
  Sample.users0 !! "alice" = Some Sample.alice /\
  messageMatches discord ["activity"]
    (cutoffTime Sample.berlin Sample.noon2April "recent") Sample.activityMessage = true /\
  exists user' r,
    storeMessage Sample.users0 "alice" discord "dev" Sample.activityMessage !! "alice"
      = Some user' /\
    In r (searchMessages Sample.berlin user' Sample.noon2April discord ["activity"] []
            "recent") /\
    infoId (channelInfo r) = "dev" /\
    In Sample.activityMessage (messages r).
Proof.
  assert (H1 : Sample.users0 !! "alice" = Some Sample.alice) by reflexivity.
  assert (H2 : messageMatches discord ["activity"]
    (cutoffTime Sample.berlin Sample.noon2April "recent") Sample.activityMessage = true)
    by (vm_compute; reflexivity).
  split; [exact H1|]. split; [exact H2|].
  exact (stored_message_is_found Sample.berlin Sample.users0 "alice" discord "dev"
           Sample.activityMessage Sample.alice Sample.noon2April ["activity"] "recent"
           H1 H2).
Defined.

(** ** Command words *)

Section CommandWords.
Import JSString.

Lemma splitOnAux_no_sep (sep : ascii) (word cur rest : string) :
  charIn sep word = false ->
  splitOnAux sep (word +:+ String sep rest) cur =
    (cur +:+ word) :: splitOnAux sep rest EmptyString.
Proof.
  revert cur. induction word as [|x word IH]; intros cur Hno.
  - rewrite JSStringFacts.append_nil_l, JSStringFacts.append_nil_r. simpl.
    now rewrite Ascii.eqb_refl.
  - simpl in Hno. apply orb_false_iff in Hno. destruct Hno as [Hx Hw].
    rewrite JSStringFacts.append_cons. cbn [splitOnAux].
    rewrite Ascii.eqb_sym, Hx. rewrite (IH _ Hw).
    now rewrite JSStringFacts.append_assoc.
Qed.

Lemma splitOnAux_no_sep_end (sep : ascii) (word cur : string) :
  charIn sep word = false -> splitOnAux sep word cur = [cur +:+ word].
Proof.
  revert cur. induction word as [|x word IH]; intros cur Hno.
  - now rewrite JSStringFacts.append_nil_r.
  - simpl in Hno. apply orb_false_iff in Hno. destruct Hno as [Hx Hw].
    cbn [splitOnAux]. rewrite Ascii.eqb_sym, Hx. rewrite (IH _ Hw).
    now rewrite JSStringFacts.append_assoc.
Qed.

(** The platform word of a command: none when the command word stands
    alone, the empty word when the command word is followed by a space and
    then by a space or by nothing. *)
Lemma commandPlatform_edge (command rest : string) :
  charIn " " command = false ->
  commandPlatform command = None /\
  commandPlatform (command +:+ " ") = Some EmptyString /\
  commandPlatform (command +:+ String " " (String " " rest)) = Some EmptyString.
Proof.
  intros Hno. unfold commandPlatform, splitSpaces. split; [|split].
  - now rewrite splitOnAux_no_sep_end.
  - now rewrite splitOnAux_no_sep.
  - rewrite splitOnAux_no_sep by exact Hno. reflexivity.
Qed.
End CommandWords.

(** X22. Commands need exactly one space before the platform.  When the
    command word stands alone, or is followed by a space and then nothing,
    or by two spaces and anything, [/setup] and [/disconnect] answer with
    their usage texts, and [/disconnect] disconnects nothing and clears
    nothing, whatever platform is written after the second space. *)
Theorem command_needs_single_space (completes : Platform -> bool)
    (users : gmap string UserConfig) (command rest uid : string) (text : string) :
  charIn " " command = false ->
  text = command \/ text = command +:+ " " \/
    text = command +:+ String " " (String " " rest) ->
  handleDisconnectCommand completes users text uid
    = (users, Returned [mkOutgoing "text" disconnectUsageText]) /\
  handleSetupCommand text uid
    = [mkOutgoing "text" "Please specify a platform: /setup telegram|discord|slack"].
Proof.
  intros Hno Htext.
  destruct (commandPlatform_edge command rest Hno) as (H0 & H1 & H2).
  unfold handleDisconnectCommand, handleSetupCommand.
  destruct Htext as [->|[->| ->]]; [rewrite H0 | rewrite H1 | rewrite H2]; now split.
Qed.

Lemma command_needs_single_space_witness :
  charIn " " "/disconnect" = false /\
  ("/disconnect  telegram" = "/disconnect" \/
   "/disconnect  telegram" = "/disconnect" +:+ " " \/
   "/disconnect  telegram" = "/disconnect" +:+ String " " (String " " "telegram")) /\
  handleDisconnectCommand (fun _ => true) Sample.users0 "/disconnect  telegram" "alice"
    = (Sample.users0, Returned [mkOutgoing "text" disconnectUsageText]).
Proof.
  assert (H1 : charIn " " "/disconnect" = false) by reflexivity.
  assert (H2 : "/disconnect  telegram" = "/disconnect" \/
   "/disconnect  telegram" = "/disconnect" +:+ " " \/
   "/disconnect  telegram" = "/disconnect" +:+ String " " (String " " "telegram"))
    by (right; right; reflexivity).
  split; [exact H1|]. split; [exact H2|].
  exact (proj1 (command_needs_single_space (fun _ => true) Sample.users0
                  "/disconnect" "telegram" "alice" "/disconnect  telegram" H1 H2)).
Defined.
